(** * The MCS (T.125) client layer of grdp: [protocol/t125/mcs.go]

    A shallow embedding of the Multipoint Communication Service client:
    the one-byte domain-PDU header, the BER form of [DomainParameters] and
    [ConnectInitial], the (placeholder) [ConnectResponse] decoder, and the
    callback-driven handshake of [MCSClient].

    Conventions.
    - Go's [uint8], [uint16], [uint32] are [Z] with the wrap-around written
      out ([uint8], [uint16], [uint32] below); Go's [int] is [Z].
    - A [[]byte] is a [list byte].
    - The packages [ber], [per], [gcc] and [core] are used by [mcs.go] but
      are not part of the file.  Writers are taken as parameters (classes
      [Ber], [PerWriter], [Gcc]); the three tiny readers the handshake
      needs are modelled from the specification.
    - A handler either returns or panics; both outcomes carry the session
      and everything it did on the transport and on its emitter. *)

From Stdlib Require Import ZArith List String Bool Lia.
From Stdlib.Strings Require Import Byte.
Import ListNotations.

Local Open Scope Z_scope.
Local Open Scope list_scope.

(** ** Machine integers and bytes *)

Definition uint8 (x : Z) : Z := x mod 256.
Definition uint16 (x : Z) : Z := x mod 65536.
Definition uint32 (x : Z) : Z := x mod 4294967296.

Definition Z_of_byte (b : byte) : Z := Z.of_N (Byte.to_N b).

Definition byte_of_Z (x : Z) : byte :=
  match Byte.of_N (Z.to_N (uint8 x)) with
  | Some b => b
  | None => x00
  end.

(** [len(b)] of a slice, as a Go [int]. *)
Definition len {A : Type} (l : list A) : Z := Z.of_nat (List.length l).

(** ** Constants *)

Definition MCS_TYPE_CONNECT_INITIAL : Z := 0x65.
Definition MCS_TYPE_CONNECT_RESPONSE : Z := 0x66.

Definition ERECT_DOMAIN_REQUEST : Z := 1.
Definition DISCONNECT_PROVIDER_ULTIMATUM : Z := 8.
Definition ATTACH_USER_REQUEST : Z := 10.
Definition ATTACH_USER_CONFIRM : Z := 11.
Definition CHANNEL_JOIN_REQUEST : Z := 14.
Definition CHANNEL_JOIN_CONFIRM : Z := 15.
Definition SEND_DATA_REQUEST : Z := 25.
Definition SEND_DATA_INDICATION : Z := 26.

(** The enumerated [MCSDomainPDU] kinds, in declaration order. *)
Definition domain_pdu_kinds : list Z :=
  [ERECT_DOMAIN_REQUEST; DISCONNECT_PROVIDER_ULTIMATUM;
   ATTACH_USER_REQUEST; ATTACH_USER_CONFIRM;
   CHANNEL_JOIN_REQUEST; CHANNEL_JOIN_CONFIRM;
   SEND_DATA_REQUEST; SEND_DATA_INDICATION].

Definition MCS_GLOBAL_CHANNEL : Z := 1003.
Definition MCS_USERCHANNEL_BASE : Z := 1001.

(** ** Writers and readers of package [core]

    An [io.Writer] backed by a [bytes.Buffer] is the list of bytes written
    so far; a [bytes.Reader] is a slice and a read offset. *)

Definition Writer := list byte.

(** Modelled from the spec: [core.WriteUInt8] is not in [mcs.go]; the
    header is "one byte", so the call appends that single byte. *)
Definition core_WriteUInt8 (v : Z) (w : Writer) : Writer :=
  w ++ [byte_of_Z v].

Record Reader := mkReader { rbuf : list byte; roff : nat }.

Definition bytes_NewReader (s : list byte) : Reader := mkReader s 0.

Inductive GoType :=
| T_ServerCoreData
| T_ServerSecurityData
| T_ServerNetworkData
| T_Ptr (t : GoType)
| T_Other (name : string).

(** A value held in an [interface{}]: its dynamic type and its content.
    The session never looks inside a capability block, so the content is
    kept as raw bytes. *)
Record Iface := mkIface { dyn_type : GoType; dyn_data : list byte }.

Inductive error :=
| io_EOF
| errors_New (msg : string)
| err_unhandled_block (v : Iface) (userData : list byte)
| err_connect_initial_write (cause : error)
| err_transport (code : Z).

(** Modelled from the spec: [core.ReadUInt8] is not in [mcs.go]; it reads
    the one header byte, or fails at the end of the buffer. *)
Definition core_ReadUInt8 (r : Reader) : Z * option error * Reader :=
  match nth_error (rbuf r) (roff r) with
  | Some b => (Z_of_byte b, None, mkReader (rbuf r) (S (roff r)))
  | None => (0, Some io_EOF, r)
  end.

(** Modelled from the spec: [per.ReadEnumerates] is not in [mcs.go]; the
    Attach User Confirm body is "header byte + PER enumerated(result) +
    PER 16-bit integer", the enumerated result being one byte. *)
Definition per_ReadEnumerates (r : Reader) : Z * option error * Reader :=
  core_ReadUInt8 r.

(** Modelled from the spec: [per.ReadInteger16] is not in [mcs.go]; a
    16-bit integer, big-endian as all integers of the wire format. *)
Definition per_ReadInteger16 (r : Reader) : Z * option error * Reader :=
  match nth_error (rbuf r) (roff r), nth_error (rbuf r) (S (roff r)) with
  | Some hi, Some lo =>
      (Z_of_byte hi * 256 + Z_of_byte lo, None,
       mkReader (rbuf r) (S (S (roff r))))
  | _, _ => (0, Some io_EOF, r)
  end.

(** ** The domain-PDU header *)

Definition writeMCSPDUHeader (mcsPdu : Z) (options : Z) (w : Writer) : Writer :=
  core_WriteUInt8 (Z.lor (uint8 (Z.shiftl (uint8 mcsPdu) 2)) options) w.

Definition readMCSPDUHeader (options : Z) (mcsPdu : Z) : bool :=
  Z.shiftr options 2 =? uint8 mcsPdu.

(** ** Codec packages taken as parameters

    A writer of package [ber] or [per] receives an [io.Writer], through
    which it can only append; it is given here by the bytes it appends. *)

Class Ber := {
  ber_WriteInteger : Z -> list byte;
  ber_WriteOctetstring : list byte -> list byte;
  ber_WriteBoolean : bool -> list byte;
  ber_WriteEncodedDomainParams : list byte -> list byte;
  ber_WriteApplicationTag : Z -> Z -> list byte
}.

Class PerWriter := {
  per_WriteInteger : Z -> list byte
}.

(** ** Domain parameters *)

Record DomainParameters := mkDomainParameters {
  MaxChannelIds : Z;
  MaxUserIds : Z;
  MaxTokenIds : Z;
  NumPriorities : Z;
  MinThoughput : Z;
  MaxHeight : Z;
  MaxMCSPDUsize : Z;
  ProtocolVersion : Z
}.

Definition NewDomainParameters
  (maxChannelIds maxUserIds maxTokenIds numPriorities minThoughput
   maxHeight maxMCSPDUsize protocolVersion : Z) : DomainParameters :=
  mkDomainParameters maxChannelIds maxUserIds maxTokenIds numPriorities
    minThoughput maxHeight maxMCSPDUsize protocolVersion.

Section BerEncoding.
Context `{Ber}.

Definition DomainParameters_BER (d : DomainParameters) : list byte :=
  let buff : Writer := [] in
  let buff := buff ++ ber_WriteInteger (MaxChannelIds d) in
  let buff := buff ++ ber_WriteInteger (MaxUserIds d) in
  let buff := buff ++ ber_WriteInteger (MaxTokenIds d) in
  let buff := buff ++ ber_WriteInteger 1 in
  let buff := buff ++ ber_WriteInteger 0 in
  let buff := buff ++ ber_WriteInteger 1 in
  let buff := buff ++ ber_WriteInteger (MaxMCSPDUsize d) in
  let buff := buff ++ ber_WriteInteger 2 in
  buff.

End BerEncoding.

(** ** Connect Initial *)

Record ConnectInitial := mkConnectInitial {
  CallingDomainSelector : list byte;
  CalledDomainSelector : list byte;
  UpwardFlag : bool;
  TargetParameters : DomainParameters;
  MinimumParameters : DomainParameters;
  MaximumParameters : DomainParameters;
  UserData : list byte
}.

Definition NewConnectInitial (userData : list byte) : ConnectInitial :=
  mkConnectInitial [x01] [x01] true
    (NewDomainParameters 34 2 0 1 0 1 0xffff 2)
    (NewDomainParameters 1 1 1 1 0 1 0x420 2)
    (NewDomainParameters 0xffff 0xfc17 0xffff 1 0 1 0xffff 2)
    userData.

Section ConnectInitialEncoding.
Context `{Ber}.

Definition ConnectInitial_BER (c : ConnectInitial) : list byte :=
  let buff : Writer := [] in
  let buff := buff ++ ber_WriteOctetstring (CallingDomainSelector c) in
  let buff := buff ++ ber_WriteOctetstring (CalledDomainSelector c) in
  let buff := buff ++ ber_WriteBoolean (UpwardFlag c) in
  let buff := buff ++
    ber_WriteEncodedDomainParams (DomainParameters_BER (TargetParameters c)) in
  let buff := buff ++
    ber_WriteEncodedDomainParams (DomainParameters_BER (MinimumParameters c)) in
  let buff := buff ++
    ber_WriteEncodedDomainParams (DomainParameters_BER (MaximumParameters c)) in
  let buff := buff ++ ber_WriteOctetstring (UserData c) in
  buff.

End ConnectInitialEncoding.

(** ** Connect Response *)

Record ConnectResponse := mkConnectResponse {
  result : Z;
  calledConnectId : Z;
  domainParameters : DomainParameters;
  userData : list byte
}.

Definition NewConnectResponse (userData : list byte) : ConnectResponse :=
  mkConnectResponse 0 0 (NewDomainParameters 22 3 0 1 0 1 0xfff8 2) userData.

(** The decoder is a placeholder in the source (marked [todo]): the reader
    is never consulted. *)
Definition ReadConnectResponse (r : Reader) : ConnectResponse * option error :=
  (NewConnectResponse [], None).

(** ** The session: channel registry, client state, observable effects *)

Record MCSChannelInfo := mkMCSChannelInfo { id : Z; name : string }.

(** Of [gcc.ClientCoreData] the session touches one field. *)
Record ClientCoreData := mkClientCoreData { ServerSelectedProtocol : Z }.

Class Gcc := {
  gcc_NewClientCoreData : ClientCoreData;
  gcc_ClientCoreData_Block : ClientCoreData -> list byte;
  gcc_ClientNetworkData_Block : list byte;
  gcc_ClientSecurityData_Block : list byte;
  gcc_MakeConferenceCreateRequest : list byte -> list byte;
  gcc_ReadConferenceCreateResponse : list byte -> list Iface
}.

(** What [transport.Write] answers for a buffer: [nil] or an error. *)
Class Transport := {
  transport_Write_error : list byte -> option error
}.

(** [MCSClient] with the embedded [MCS] flattened.  A pointer field is
    [None] while it is [nil]. *)
Record MCSClient := mkMCSClient {
  recvOpCode : Z;
  sendOpCode : Z;
  channels : list MCSChannelInfo;
  clientCoreData : ClientCoreData;
  serverCoreData : option (list byte);
  serverNetworkData : option (list byte);
  serverSecurityData : option (list byte);
  channelsConnected : Z;
  userId : Z
}.

Definition set_channels (v : list MCSChannelInfo) (c : MCSClient) :=
  mkMCSClient (recvOpCode c) (sendOpCode c) v (clientCoreData c)
    (serverCoreData c) (serverNetworkData c) (serverSecurityData c)
    (channelsConnected c) (userId c).
Definition set_clientCoreData (v : ClientCoreData) (c : MCSClient) :=
  mkMCSClient (recvOpCode c) (sendOpCode c) (channels c) v
    (serverCoreData c) (serverNetworkData c) (serverSecurityData c)
    (channelsConnected c) (userId c).
Definition set_serverCoreData (v : option (list byte)) (c : MCSClient) :=
  mkMCSClient (recvOpCode c) (sendOpCode c) (channels c) (clientCoreData c)
    v (serverNetworkData c) (serverSecurityData c)
    (channelsConnected c) (userId c).
Definition set_serverNetworkData (v : option (list byte)) (c : MCSClient) :=
  mkMCSClient (recvOpCode c) (sendOpCode c) (channels c) (clientCoreData c)
    (serverCoreData c) v (serverSecurityData c)
    (channelsConnected c) (userId c).
Definition set_serverSecurityData (v : option (list byte)) (c : MCSClient) :=
  mkMCSClient (recvOpCode c) (sendOpCode c) (channels c) (clientCoreData c)
    (serverCoreData c) (serverNetworkData c) v
    (channelsConnected c) (userId c).
Definition set_channelsConnected (v : Z) (c : MCSClient) :=
  mkMCSClient (recvOpCode c) (sendOpCode c) (channels c) (clientCoreData c)
    (serverCoreData c) (serverNetworkData c) (serverSecurityData c)
    v (userId c).
Definition set_userId (v : Z) (c : MCSClient) :=
  mkMCSClient (recvOpCode c) (sendOpCode c) (channels c) (clientCoreData c)
    (serverCoreData c) (serverNetworkData c) (serverSecurityData c)
    (channelsConnected c) v.

(** The callbacks the client hands to [transport.Once] / [transport.On]
    for the ["data"] event; [discard_h] is the empty closure installed by
    [connectChannels]. *)
Inductive Handler :=
| recvConnectResponse_h
| recvAttachUserConfirm_h
| recvChannelJoinConfirm_h
| discard_h.

Definition Handler_eqb (a b : Handler) : bool :=
  match a, b with
  | recvConnectResponse_h, recvConnectResponse_h
  | recvAttachUserConfirm_h, recvAttachUserConfirm_h
  | recvChannelJoinConfirm_h, recvChannelJoinConfirm_h
  | discard_h, discard_h => true
  | _, _ => false
  end.

(** What the session does to the outside, in program order. *)
Inductive Effect :=
| Write (b : list byte)
| Once (h : Handler)
| On (h : Handler)
| EmitError (e : error)
| EmitConnect (userId : Z) (channels : list MCSChannelInfo)
| EmitClose.

Record World := mkWorld {
  client : MCSClient;
  effects : list Effect;
  dataListeners : list (bool * Handler)
}.

Inductive Panic :=
| IndexOutOfRange (index length : Z)
| InterfaceConversion (have want : GoType).

Inductive Result (A : Type) :=
| Returned (a : A) (w : World)
| Panicked (p : Panic) (w : World).
Arguments Returned {A} a w.
Arguments Panicked {A} p w.

(** The world a call leaves behind, whether it returned or panicked. *)
Definition world_of {A : Type} (r : Result A) : World :=
  match r with
  | Returned _ w => w
  | Panicked _ w => w
  end.

Module Go.

Definition M (A : Type) : Type := World -> Result A.

Definition ret {A : Type} (a : A) : M A := fun w => Returned a w.

Definition bind {A B : Type} (m : M A) (k : A -> M B) : M B :=
  fun w =>
    match m w with
    | Returned a w' => k a w'
    | Panicked p w' => Panicked p w'
    end.

Definition panic {A : Type} (p : Panic) : M A := fun w => Panicked p w.

Definition getClient : M MCSClient := fun w => Returned (client w) w.

Definition modifyClient (f : MCSClient -> MCSClient) : M unit :=
  fun w => Returned tt (mkWorld (f (client w)) (effects w) (dataListeners w)).

Definition getListeners : M (list (bool * Handler)) :=
  fun w => Returned (dataListeners w) w.

Definition setListeners (ls : list (bool * Handler)) : M unit :=
  fun w => Returned tt (mkWorld (client w) (effects w) ls).

Definition record (e : Effect) : M unit :=
  fun w => Returned tt (mkWorld (client w) (effects w ++ [e]) (dataListeners w)).

End Go.
Import Go.

Declare Scope go_scope.
Delimit Scope go_scope with go.
Notation "x <- m ;; k" := (bind m (fun x => k))
  (at level 61, m at next level, right associativity) : go_scope.
Notation "m ;; k" := (bind m (fun _ => k))
  (at level 61, right associativity) : go_scope.
Local Open Scope go_scope.

(** [l[i]] on a slice. *)
Definition index {A : Type} (l : list A) (i : Z) : M A :=
  if (0 <=? i) && (i <? len l) then
    match nth_error l (Z.to_nat i) with
    | Some a => ret a
    | None => panic (IndexOutOfRange i (len l))
    end
  else panic (IndexOutOfRange i (len l)).

Fixpoint GoType_eqb (a b : GoType) : bool :=
  match a, b with
  | T_ServerCoreData, T_ServerCoreData
  | T_ServerSecurityData, T_ServerSecurityData
  | T_ServerNetworkData, T_ServerNetworkData => true
  | T_Ptr a', T_Ptr b' => GoType_eqb a' b'
  | T_Other n, T_Other m => String.eqb n m
  | _, _ => false
  end.

(** [v.(T)], the one-result type assertion: it panics unless the dynamic
    type of [v] is [T]. *)
Definition type_assert (v : Iface) (T : GoType) : M (list byte) :=
  if GoType_eqb (dyn_type v) T then ret (dyn_data v)
  else panic (InterfaceConversion (dyn_type v) T).

(** *** Emitter and transport primitives *)

Definition Emit_error (e : error) : M unit := record (EmitError e).

Definition Emit_connect (userId : Z) (channels : list MCSChannelInfo) : M unit :=
  record (EmitConnect userId channels).

Definition transport_Once (h : Handler) : M unit :=
  (record (Once h) ;;
   ls <- getListeners ;;
   setListeners (ls ++ [(true, h)])).

Definition transport_On (h : Handler) : M unit :=
  (record (On h) ;;
   ls <- getListeners ;;
   setListeners (ls ++ [(false, h)])).

(** ** The client *)

Definition NewMCS (recvOpCode sendOpCode : Z) (core : ClientCoreData) : MCSClient :=
  mkMCSClient recvOpCode sendOpCode
    [mkMCSChannelInfo MCS_GLOBAL_CHANNEL "global"%string]
    core None None None 0 0.

Section Client.
Context `{Ber} `{PerWriter} `{Gcc} `{Transport}.

(** A fresh client: nothing done yet, no ["data"] listener pending. *)
Definition NewMCSClient : World :=
  mkWorld (NewMCS SEND_DATA_INDICATION SEND_DATA_REQUEST gcc_NewClientCoreData)
    [] [].

Definition transport_Write (b : list byte) : M (option error) :=
  (record (Write b) ;;
   ret (transport_Write_error b)).

Definition connect (selectedProtocol : Z) : M unit :=
  (modifyClient
     (set_clientCoreData (mkClientCoreData (uint32 selectedProtocol))) ;;
   c <- getClient ;;
   let userDataBuff : Writer := [] in
   let userDataBuff := userDataBuff ++ gcc_ClientCoreData_Block (clientCoreData c) in
   let userDataBuff := userDataBuff ++ gcc_ClientNetworkData_Block in
   let userDataBuff := userDataBuff ++ gcc_ClientSecurityData_Block in
   let ccReq := gcc_MakeConferenceCreateRequest userDataBuff in
   let connectInitial := NewConnectInitial ccReq in
   let connectInitialBerEncoded := ConnectInitial_BER connectInitial in
   let dataBuff : Writer := [] in
   let dataBuff := dataBuff ++
     ber_WriteApplicationTag (uint8 MCS_TYPE_CONNECT_INITIAL)
       (len connectInitialBerEncoded) in
   let dataBuff := dataBuff ++ connectInitialBerEncoded in
   err <- transport_Write dataBuff ;;
   match err with
   | Some e => Emit_error (err_connect_initial_write e)
   | None => transport_Once recvConnectResponse_h
   end).

(** The [for ... range serverSettings] loop of [recvConnectResponse];
    the answer is [false] when the [default] case returned from the
    handler. *)
Fixpoint recvConnectResponse_loop (serverSettings : list Iface)
    (cResp_userData : list byte) : M bool :=
  match serverSettings with
  | [] => ret true
  | v :: rest =>
      match dyn_type v with
      | T_ServerSecurityData =>
          (p <- type_assert v (T_Ptr T_ServerSecurityData) ;;
           modifyClient (set_serverSecurityData (Some p)) ;;
           recvConnectResponse_loop rest cResp_userData)
      | T_ServerCoreData =>
          (p <- type_assert v (T_Ptr T_ServerCoreData) ;;
           modifyClient (set_serverCoreData (Some p)) ;;
           recvConnectResponse_loop rest cResp_userData)
      | T_ServerNetworkData =>
          (p <- type_assert v (T_Ptr T_ServerNetworkData) ;;
           modifyClient (set_serverNetworkData (Some p)) ;;
           recvConnectResponse_loop rest cResp_userData)
      | _ =>
          (Emit_error (err_unhandled_block v cResp_userData) ;;
           ret false)
      end
  end.

Definition sendErectDomainRequest : M unit :=
  let buff : Writer := [] in
  let buff := writeMCSPDUHeader ERECT_DOMAIN_REQUEST 0 buff in
  let buff := buff ++ per_WriteInteger 0 in
  let buff := buff ++ per_WriteInteger 0 in
  (transport_Write buff ;; ret tt).

Definition sendAttachUserRequest : M unit :=
  let buff : Writer := [] in
  let buff := writeMCSPDUHeader ATTACH_USER_REQUEST 0 buff in
  (transport_Write buff ;; ret tt).

Definition recvConnectResponse (s : list byte) : M unit :=
  let '(cResp, err) := ReadConnectResponse (bytes_NewReader s) in
  match err with
  | Some e => Emit_error e
  | None =>
      let serverSettings := gcc_ReadConferenceCreateResponse (userData cResp) in
      (completed <- recvConnectResponse_loop serverSettings (userData cResp) ;;
       if completed : bool then
         (sendErectDomainRequest ;;
          sendAttachUserRequest ;;
          transport_Once recvAttachUserConfirm_h)
       else ret tt)
  end.

(** The body only logs. *)
Definition sendChannelJoinRequest (channelId : Z) : M unit := ret tt.

Definition connectChannels : M unit :=
  (c <- getClient ;;
   (if channelsConnected c =? len (channels c) then
      (transport_On discard_h ;;
       Emit_connect (userId c) (channels c))
    else ret tt) ;;
   c <- getClient ;;
   ch <- index (channels c) (channelsConnected c) ;;
   sendChannelJoinRequest (id ch) ;;
   modifyClient (fun c => set_channelsConnected (channelsConnected c + 1) c) ;;
   transport_Once recvChannelJoinConfirm_h).

(** [recvAttachUserConfirm], started on the reader [r] it builds over
    its argument; the answer is that reader as the handler leaves it. *)
Definition recvAttachUserConfirm_on (r : Reader) : M Reader :=
  let '(option, err, r) := core_ReadUInt8 r in
  match err with
  | Some e => (Emit_error e ;; ret r)
  | None =>
      if negb (readMCSPDUHeader option ATTACH_USER_CONFIRM) then
        (Emit_error (errors_New "NODE_RDP_PROTOCOL_T125_MCS_BAD_HEADER") ;;
         ret r)
      else
        let '(e, err, r) := per_ReadEnumerates r in
        match err with
        | Some e' => (Emit_error e' ;; ret r)
        | None =>
            if negb (e =? 0) then
              (Emit_error
                 (errors_New "NODE_RDP_PROTOCOL_T125_MCS_SERVER_REJECT_USER'") ;;
               ret r)
            else
              let '(userId, _, r) := per_ReadInteger16 r in
              let userId := uint16 (userId + MCS_USERCHANNEL_BASE) in
              (modifyClient (set_userId userId) ;;
               modifyClient
                 (fun c => set_channels
                    (channels c ++ [mkMCSChannelInfo userId "user"%string]) c) ;;
               connectChannels ;;
               ret r)
        end
  end.

Definition recvAttachUserConfirm (s : list byte) : M unit :=
  (recvAttachUserConfirm_on (bytes_NewReader s) ;; ret tt).

(** The confirm is not decoded (marked [todo] in the source). *)
Definition recvChannelJoinConfirm (s : list byte) : M unit :=
  connectChannels.

(** *** Delivery of transport events

    Modelled from the spec: the transport is a collaborator outside
    [mcs.go]; it offers "one-shot next inbound buffer subscriptions",
    each "consumed (removed) the moment it fires", and persistent ones. *)

Definition handle (h : Handler) (s : list byte) : M unit :=
  match h with
  | recvConnectResponse_h => recvConnectResponse s
  | recvAttachUserConfirm_h => recvAttachUserConfirm s
  | recvChannelJoinConfirm_h => recvChannelJoinConfirm s
  | discard_h => ret tt
  end.

Fixpoint remove_once (h : Handler) (ls : list (bool * Handler)) :=
  match ls with
  | [] => []
  | (once, h') :: rest =>
      if once && Handler_eqb h h' then rest
      else (once, h') :: remove_once h rest
  end.

Fixpoint dispatch (pending : list (bool * Handler)) (s : list byte) : M unit :=
  match pending with
  | [] => ret tt
  | (once, h) :: rest =>
      ((if once : bool then
          (ls <- getListeners ;; setListeners (remove_once h ls))
        else ret tt) ;;
       handle h s ;;
       dispatch rest s)
  end.

Inductive Input :=
| In_connect (selectedProtocol : Z)
| In_data (s : list byte)
| In_error (e : error)
| In_close.

(** One notification of the transport: ["connect"] runs [connect] (wired
    by [NewMCSClient]), ["data"] goes to the listeners pending at that
    moment, ["error"] and ["close"] are forwarded (wired by [NewMCS]). *)
Definition fire (i : Input) : M unit :=
  match i with
  | In_connect selectedProtocol => connect selectedProtocol
  | In_data s => (ls <- getListeners ;; dispatch ls s)
  | In_error e => Emit_error e
  | In_close => record EmitClose
  end.

Fixpoint run (inputs : list Input) : M unit :=
  match inputs with
  | [] => ret tt
  | i :: rest => (fire i ;; run rest)
  end.

End Client.

(** ** Observations on a trace of effects *)

Definition is_write (e : Effect) : bool :=
  match e with Write _ => true | _ => false end.

Definition is_error (e : Effect) : bool :=
  match e with EmitError _ => true | _ => false end.

Definition is_connect (e : Effect) : bool :=
  match e with EmitConnect _ _ => true | _ => false end.

Definition writes (t : list Effect) : list Effect := filter is_write t.
Definition errors (t : list Effect) : list Effect := filter is_error t.
Definition connects (t : list Effect) : list Effect := filter is_connect t.

(** ** A sample codec, to run the model on concrete buffers

    The theorems below hold for every instance of the codec classes; this
    one only serves to evaluate the session on examples. *)
Module Sample.

Definition length_prefixed (tag : byte) (body : list byte) : list byte :=
  tag :: byte_of_Z (len body) :: body.

#[export] Instance ber : Ber := {|
  ber_WriteInteger := fun n => length_prefixed x02 [byte_of_Z (Z.shiftr n 8); byte_of_Z n];
  ber_WriteOctetstring := fun s => length_prefixed x04 s;
  ber_WriteBoolean := fun b => length_prefixed x01 [if b then xff else x00];
  ber_WriteEncodedDomainParams := fun d => length_prefixed x30 d;
  ber_WriteApplicationTag := fun tag size => [x7f; byte_of_Z tag; byte_of_Z size]
|}.

#[export] Instance per : PerWriter := {|
  per_WriteInteger := fun n => [x01; byte_of_Z n]
|}.

(** The decoder finds no capability block. *)
#[export] Instance gcc : Gcc := {|
  gcc_NewClientCoreData := mkClientCoreData 0;
  gcc_ClientCoreData_Block := fun c => [x01; xc0; byte_of_Z (ServerSelectedProtocol c)];
  gcc_ClientNetworkData_Block := [x03; xc0];
  gcc_ClientSecurityData_Block := [x02; xc0];
  gcc_MakeConferenceCreateRequest := fun u => x00 :: x05 :: u;
  gcc_ReadConferenceCreateResponse := fun _ => []
|}.

(** The decoder finds a core block held by value, then an unknown block. *)
Definition gcc_core_then_unknown : Gcc := {|
  gcc_NewClientCoreData := mkClientCoreData 0;
  gcc_ClientCoreData_Block := fun c => [x01; xc0; byte_of_Z (ServerSelectedProtocol c)];
  gcc_ClientNetworkData_Block := [x03; xc0];
  gcc_ClientSecurityData_Block := [x02; xc0];
  gcc_MakeConferenceCreateRequest := fun u => x00 :: x05 :: u;
  gcc_ReadConferenceCreateResponse := fun _ =>
    [mkIface T_ServerCoreData [x01; x0c];
     mkIface (T_Other "gcc.ServerMessageChannelData") [x04; x0c]]
|}.

(** Every write succeeds. *)
#[export] Instance transport : Transport := {|
  transport_Write_error := fun _ => None
|}.

End Sample.

(** The dynamic types named by the cases of the type switch. *)
Definition is_server_block_type (T : GoType) : bool :=
  match T with
  | T_ServerCoreData | T_ServerSecurityData | T_ServerNetworkData => true
  | _ => false
  end.

(** ** Sample session states and buffers *)

(** The session waiting for the Attach User Confirm. *)
Definition attach_user_requested : World :=
  mkWorld (NewMCS SEND_DATA_INDICATION SEND_DATA_REQUEST (mkClientCoreData 1))
    [] [].

(** The Attach User Confirm of the handshake: opcode 11, result 0, id 5. *)
Definition confirm_user_5 : list byte := [x2c; x00; x00; x05].

(** A Connect Response whose user data ends in a block of an unknown
    type (tag 0x0c04) after a core block (tag 0x0c01). *)
Definition response_with_unknown_block : list byte :=
  [x7f; x66; x12; x0a; x01; x00; x02; x01; x00; x30; x00; x04; x08;
   x01; x0c; x04; x00; x04; x0c; x04; x00].

(** An Attach User Confirm whose header carries opcode 10. *)
Definition confirm_with_opcode_10 : list byte := [x28; x00; x00; x05].

(** The session waiting for the confirm of channel 1003. *)
Definition global_channel_requested : World :=
  mkWorld
    (mkMCSClient SEND_DATA_INDICATION SEND_DATA_REQUEST
       [mkMCSChannelInfo 1003 "global"%string; mkMCSChannelInfo 1006 "user"%string]
       (mkClientCoreData 1) None None None 1 1006)
    [] [].

(** A confirm that echoes channel 1004 (0x03ec) for user 1006. *)
Definition confirm_for_1004 : list byte := [x3e; x00; x00; x05; x03; xec].

(** The session after both channels were requested: two channels in the
    registry, two joins counted. *)
Definition both_channels_requested : World :=
  mkWorld
    (mkMCSClient SEND_DATA_INDICATION SEND_DATA_REQUEST
       [mkMCSChannelInfo 1003 "global"%string; mkMCSChannelInfo 1006 "user"%string]
       (mkClientCoreData 1) None None None 2 1006)
    [] [].

(** ** Changes a handler can make to the session

    The three ways in which the code of the client assigns to its fields:
    [connect] records the selected protocol, [recvAttachUserConfirm]
    stores the user id and appends the user channel, [connectChannels]
    counts a join after reading the registry at the counter. *)
Inductive client_move : MCSClient -> MCSClient -> Prop :=
| move_protocol (selectedProtocol : Z) (c : MCSClient) :
    client_move c
      (set_clientCoreData (mkClientCoreData (uint32 selectedProtocol)) c)
| move_user (assigned : Z) (c : MCSClient) :
    client_move c
      (set_channels
         (channels c ++
          [mkMCSChannelInfo (uint16 (assigned + MCS_USERCHANNEL_BASE))
             "user"%string])
         (set_userId (uint16 (assigned + MCS_USERCHANNEL_BASE)) c))
| move_join (c : MCSClient) :
    0 <= channelsConnected c < len (channels c) ->
    client_move c (set_channelsConnected (channelsConnected c + 1) c).

Inductive client_moves : MCSClient -> MCSClient -> Prop :=
| moves_refl (c : MCSClient) : client_moves c c
| moves_step (c1 c2 c3 : MCSClient) :
    client_move c1 c2 -> client_moves c2 c3 -> client_moves c1 c3.

(** The registry starts with the global channel, the join counter stays
    within the registry, the user id is a 16-bit value. *)
Definition registry_inv (c : MCSClient) : Prop :=
  (exists rest : list MCSChannelInfo,
      channels c = mkMCSChannelInfo MCS_GLOBAL_CHANNEL "global"%string :: rest) /\
  0 <= channelsConnected c <= len (channels c) /\
  0 <= userId c < 65536.

Definition no_server_data (c : MCSClient) : Prop :=
  serverCoreData c = None /\
  serverNetworkData c = None /\
  serverSecurityData c = None.

(** The four fields for which [DomainParameters.BER] writes a constant
    hold that constant. *)
Definition standard_fixed (d : DomainParameters) : Prop :=
  NumPriorities d = 1 /\ MinThoughput d = 0 /\
  MaxHeight d = 1 /\ ProtocolVersion d = 2.

(** What a call guarantees from a world satisfying [P]: [Q] when it
    returns, [E] when it panics. *)
Definition triple {A : Type} (P : World -> Prop) (m : M A)
    (Q : A -> World -> Prop) (E : World -> Prop) : Prop :=
  forall w : World, P w ->
    match m w with
    | Returned a w' => Q a w'
    | Panicked _ w' => E w'
    end.

Definition no_connect_yet (w : World) : Prop := connects (effects w) = [].

Definition connect_at_most_once (w : World) : Prop :=
  (List.length (connects (effects w)) <= 1)%nat.

(** A call moves the session by changes of the three kinds only. *)
Definition advances {A : Type} (m : M A) : Prop :=
  forall w : World, client_moves (client w) (client (world_of (m w))).

(** The listeners of the phases after the Connect Response. *)
Definition later_listeners (ls : list (bool * Handler)) : Prop :=
  Forall (fun l : bool * Handler => snd l <> recvConnectResponse_h) ls.

(** The writes so far are [ws] and only later-phase listeners pend. *)
Definition written (ws : list Effect) (w : World) : Prop :=
  writes (effects w) = ws /\ later_listeners (dataListeners w).

(** A call that, from such a world, writes nothing and keeps the
    listeners in the later phases, whether it returns or panics. *)
Definition writes_nothing {A : Type} (m : M A) : Prop :=
  forall ws : list Effect,
    triple (written ws) m (fun _ => written ws) (written ws).

(** A call that emits no "connect" unless it panics. *)
Definition quiet {A : Type} (m : M A) : Prop :=
  triple no_connect_yet m (fun _ => no_connect_yet) connect_at_most_once.

(** A transport on which every write fails with [e]. *)
Definition failing_transport (e : error) : Transport :=
  {| transport_Write_error := fun _ => Some e |}.

(** The decoder finds a single block, a pointer to network data. *)
Definition gcc_pointer_block : Gcc := {|
  gcc_NewClientCoreData := mkClientCoreData 0;
  gcc_ClientCoreData_Block := fun c => [x01; xc0; byte_of_Z (ServerSelectedProtocol c)];
  gcc_ClientNetworkData_Block := [x03; xc0];
  gcc_ClientSecurityData_Block := [x02; xc0];
  gcc_MakeConferenceCreateRequest := fun u => x00 :: x05 :: u;
  gcc_ReadConferenceCreateResponse := fun _ =>
    [mkIface (T_Ptr T_ServerNetworkData) [x03; x0c]]
|}.


(** The session waiting for the Attach User Confirm, listener pending. *)
Definition awaiting_attach_confirm : World :=
  mkWorld (NewMCS SEND_DATA_INDICATION SEND_DATA_REQUEST (mkClientCoreData 1))
    [] [(true, recvAttachUserConfirm_h)].

(** ** Unfolding the session monad *)

Ltac go_unfold :=
  cbv [bind ret panic getClient modifyClient getListeners setListeners record
       Emit_error Emit_connect transport_Once transport_On transport_Write
       sendChannelJoinRequest];
  cbn [client effects dataListeners world_of].

(** * Properties *)

(** ** Bytes *)

Lemma Z_of_byte_range (b : byte) : 0 <= Z_of_byte b < 256.
Proof.
  unfold Z_of_byte. pose proof (Byte.to_N_bounded b) as Hb. lia.
Qed.

Lemma Z_of_byte_of_Z (x : Z) : 0 <= x < 256 -> Z_of_byte (byte_of_Z x) = x.
Proof.
  intros Hx. unfold Z_of_byte, byte_of_Z, uint8.
  rewrite Z.mod_small by lia.
  destruct (Byte.of_N (Z.to_N x)) as [b|] eqn:E.
  - apply Byte.to_of_N in E. rewrite E. lia.
  - apply Byte.of_N_None_iff in E. lia.
Qed.

(** ** The header codec *)

Lemma domain_pdu_kinds_small (op : Z) :
  In op domain_pdu_kinds -> 0 <= op < 64.
Proof.
  unfold domain_pdu_kinds. simpl.
  intros [<-|[<-|[<-|[<-|[<-|[<-|[<-|[<-|[]]]]]]]]]; vm_compute; split; congruence.
Qed.

Lemma header_value_small (op options : Z) :
  0 <= op < 64 -> 0 <= options < 4 ->
  Z.lor (uint8 (Z.shiftl (uint8 op) 2)) options = op * 4 + options.
Proof.
  intros Hop Hopt. unfold uint8.
  rewrite (Z.mod_small op) by lia.
  rewrite Z.shiftl_mul_pow2 by lia. change (2 ^ 2) with 4.
  rewrite Z.mod_small by lia.
  assert (Hland : Z.land (op * 4) options = 0).
  { replace (op * 4) with (Z.shiftl op 2)
      by (rewrite Z.shiftl_mul_pow2 by lia; reflexivity).
    apply Z.bits_inj'. intros n Hn.
    rewrite Z.land_spec, Z.bits_0.
    destruct (Z.ltb_spec n 2).
    - rewrite Z.shiftl_spec_low by lia. reflexivity.
    - replace options with (options mod 2 ^ 2)
        by (apply Z.mod_small; change (2 ^ 2) with 4; lia).
      rewrite Z.mod_pow2_bits_high by lia. apply andb_false_r. }
  rewrite <- (Z.lxor_lor _ _ Hland).
  symmetry. apply Z.add_nocarry_lxor. exact Hland.
Qed.

(** C9.  For every opcode of the enumerated domain-PDU kinds and every
    2-bit option value, the header that [writeMCSPDUHeader] writes is the
    single byte [(opcode << 2) | options], and [readMCSPDUHeader] accepts
    that byte for the same opcode; and every byte whose top six bits differ
    from the expected opcode is refused. *)
Theorem header_write_then_verify (op options : Z) :
  In op domain_pdu_kinds ->
  0 <= options < 4 ->
  (exists b : byte,
      writeMCSPDUHeader op options [] = [b] /\
      Z_of_byte b = Z.lor (Z.shiftl op 2) options /\
      readMCSPDUHeader (Z_of_byte b) op = true) /\
  (forall b : byte,
      Z.shiftr (Z_of_byte b) 2 <> op ->
      readMCSPDUHeader (Z_of_byte b) op = false).
Proof.
  intros Hin Hopt. pose proof (domain_pdu_kinds_small op Hin) as Hop.
  assert (Hu : uint8 op = op) by (unfold uint8; apply Z.mod_small; lia).
  split.
  - exists (byte_of_Z (Z.lor (uint8 (Z.shiftl (uint8 op) 2)) options)).
    split; [reflexivity|].
    rewrite header_value_small by assumption.
    rewrite Z_of_byte_of_Z by lia.
    assert (Hl : Z.lor (Z.shiftl op 2) options = op * 4 + options).
    { rewrite <- (header_value_small op options) by assumption.
      rewrite Hu. f_equal. unfold uint8.
      rewrite Z.shiftl_mul_pow2 by lia. change (2 ^ 2) with 4.
      symmetry. apply Z.mod_small. lia. }
    split; [symmetry; exact Hl|].
    unfold readMCSPDUHeader. rewrite Hu.
    apply Z.eqb_eq.
    rewrite Z.shiftr_div_pow2 by lia. change (2 ^ 2) with 4.
    rewrite Z.add_comm, Z.div_add by lia.
    rewrite Z.div_small by lia. reflexivity.
  - intros b Hb. unfold readMCSPDUHeader. rewrite Hu.
    apply Z.eqb_neq. exact Hb.
Qed.

Lemma header_write_then_verify_witness :
  (exists b : byte,
      writeMCSPDUHeader ATTACH_USER_CONFIRM 2 [] = [b] /\
      Z_of_byte b = Z.lor (Z.shiftl ATTACH_USER_CONFIRM 2) 2 /\
      readMCSPDUHeader (Z_of_byte b) ATTACH_USER_CONFIRM = true) /\
  (forall b : byte,
      Z.shiftr (Z_of_byte b) 2 <> ATTACH_USER_CONFIRM ->
      readMCSPDUHeader (Z_of_byte b) ATTACH_USER_CONFIRM = false).
Proof.
  apply (header_write_then_verify ATTACH_USER_CONFIRM 2).
  - simpl. tauto.
  - lia.
Defined.

(** ** Domain parameters and Connect Initial *)

(** C8.  The BER form of a [DomainParameters] is eight BER integers, in
    the order maxChannelIds, maxUserIds, maxTokenIds, 1, 0, 1,
    maxMCSPDUsize, 2: the fields numPriorities, minThoughput, maxHeight and
    protocolVersion given to the constructor do not reach the wire. *)
Theorem DomainParameters_BER_fixed_positions `{Ber}
    (maxChannelIds maxUserIds maxTokenIds numPriorities minThoughput
     maxHeight maxMCSPDUsize protocolVersion : Z) :
  DomainParameters_BER
    (NewDomainParameters maxChannelIds maxUserIds maxTokenIds numPriorities
       minThoughput maxHeight maxMCSPDUsize protocolVersion)
  = List.concat (map ber_WriteInteger
      [maxChannelIds; maxUserIds; maxTokenIds; 1; 0; 1; maxMCSPDUsize; 2]).
Proof.
  unfold DomainParameters_BER, NewDomainParameters. cbn [map List.concat].
  cbn [MaxChannelIds MaxUserIds MaxTokenIds MaxMCSPDUsize].
  rewrite app_nil_r. rewrite <- !app_assoc. reflexivity.
Qed.

(** ** The Connect Response decoder *)

(** C1.  [ReadConnectResponse] answers the default response with empty
    user data and no error for every reader: no tag is checked, nothing is
    decoded, and no input is reported as malformed. *)
Theorem ReadConnectResponse_never_fails (r : Reader) :
  ReadConnectResponse r = (NewConnectResponse [], None).
Proof. reflexivity. Qed.

(** C7.  For every user-data payload the body of a Connect Initial is, in
    order, octet-string(calling selector 0x01), octet-string(called
    selector 0x01), boolean(true), the three wrapped DomainParameters
    encodings (target, minimum, maximum) and octet-string(user data); and
    the buffer that [connect] hands to the transport is the application
    tag 0x65, written with the exact length of that body, followed by the
    body.  The user data of [connect] is whatever the conference-create
    request codec returns, so the second part covers every payload too. *)
Theorem connect_sends_tagged_ConnectInitial `{Ber} `{Gcc} `{Transport} :
  (forall userData : list byte,
      ConnectInitial_BER (NewConnectInitial userData) =
        ber_WriteOctetstring [x01] ++
        ber_WriteOctetstring [x01] ++
        ber_WriteBoolean true ++
        ber_WriteEncodedDomainParams
          (DomainParameters_BER (NewDomainParameters 34 2 0 1 0 1 0xffff 2)) ++
        ber_WriteEncodedDomainParams
          (DomainParameters_BER (NewDomainParameters 1 1 1 1 0 1 0x420 2)) ++
        ber_WriteEncodedDomainParams
          (DomainParameters_BER
             (NewDomainParameters 0xffff 0xfc17 0xffff 1 0 1 0xffff 2)) ++
        ber_WriteOctetstring userData) /\
  (forall (selectedProtocol : Z) (w : World),
      let userData :=
        gcc_MakeConferenceCreateRequest
          (gcc_ClientCoreData_Block (mkClientCoreData (uint32 selectedProtocol)) ++
           gcc_ClientNetworkData_Block ++ gcc_ClientSecurityData_Block) in
      let body := ConnectInitial_BER (NewConnectInitial userData) in
      exists tail : list Effect,
        effects (world_of (connect selectedProtocol w)) =
          effects w ++
          Write (ber_WriteApplicationTag 0x65 (len body) ++ body) :: tail).
Proof.
  split.
  - intros userData. unfold ConnectInitial_BER, NewConnectInitial.
    cbn [CallingDomainSelector CalledDomainSelector UpwardFlag
         TargetParameters MinimumParameters MaximumParameters UserData].
    rewrite app_nil_l, <- !app_assoc. reflexivity.
  - intros selectedProtocol w userData body.
    unfold connect. go_unfold.
    cbn [set_clientCoreData clientCoreData].
    rewrite !app_nil_l, <- !app_assoc.
    change (uint8 MCS_TYPE_CONNECT_INITIAL) with 0x65.
    fold userData. fold body.
    destruct (transport_Write_error _) as [e|]; cbn [world_of effects];
      rewrite <- app_assoc; eexists; reflexivity.
Qed.

(** ** Channel joining *)

Lemma index_in_range {A : Type} (l : list A) (i : Z) :
  0 <= i < len l ->
  exists a, nth_error l (Z.to_nat i) = Some a /\ index l i = ret a.
Proof.
  intros Hi. unfold len in Hi.
  destruct (nth_error l (Z.to_nat i)) as [a|] eqn:E.
  - exists a. split; [reflexivity|]. unfold index, len.
    replace (0 <=? i) with true by (symmetry; apply Z.leb_le; lia).
    replace (i <? Z.of_nat (List.length l)) with true
      by (symmetry; apply Z.ltb_lt; lia).
    cbn [andb]. rewrite E. reflexivity.
  - apply nth_error_None in E. lia.
Qed.

Lemma index_out_of_range {A : Type} (l : list A) (i : Z) :
  ~ (0 <= i < len l) -> index l i = panic (IndexOutOfRange i (len l)).
Proof.
  intros Hi. unfold index.
  destruct (0 <=? i) eqn:E0; destruct (i <? len l) eqn:E1; cbn [andb];
    try reflexivity.
  apply Z.leb_le in E0. apply Z.ltb_lt in E1. lia.
Qed.

(** A join step while a channel is left: the counter moves on and the
    next confirm is awaited; nothing is written and nothing is emitted. *)
Lemma connectChannels_next (w : World) :
  0 <= channelsConnected (client w) < len (channels (client w)) ->
  connectChannels w =
    Returned tt
      (mkWorld
         (set_channelsConnected (channelsConnected (client w) + 1) (client w))
         (effects w ++ [Once recvChannelJoinConfirm_h])
         (dataListeners w ++ [(true, recvChannelJoinConfirm_h)])).
Proof.
  intros Hi. unfold connectChannels. go_unfold.
  replace (channelsConnected (client w) =? len (channels (client w))) with false
    by (symmetry; apply Z.eqb_neq; lia).
  destruct (index_in_range _ _ Hi) as [ch [_ Hch]]. rewrite Hch.
  go_unfold. reflexivity.
Qed.

(** The step taken when every channel has been joined. *)
Lemma connectChannels_done (w : World) :
  channelsConnected (client w) = len (channels (client w)) ->
  connectChannels w =
    Panicked
      (IndexOutOfRange (len (channels (client w))) (len (channels (client w))))
      (mkWorld (client w)
         ((effects w ++ [On discard_h]) ++
          [EmitConnect (userId (client w)) (channels (client w))])
         (dataListeners w ++ [(false, discard_h)])).
Proof.
  intros Hi. unfold connectChannels. go_unfold.
  rewrite Hi, Z.eqb_refl. go_unfold.
  rewrite index_out_of_range by lia. rewrite Hi. reflexivity.
Qed.

(** Whatever [connectChannels] does, it leaves the registry and the user
    id as they were. *)
Lemma connectChannels_keeps_registry (w : World) :
  channels (client (world_of (connectChannels w))) = channels (client w) /\
  userId (client (world_of (connectChannels w))) = userId (client w).
Proof.
  destruct (Z.eq_dec (channelsConnected (client w)) (len (channels (client w))))
    as [E|NE].
  - rewrite connectChannels_done by assumption. split; reflexivity.
  - destruct (Z_le_dec 0 (channelsConnected (client w))) as [L|L];
      [destruct (Z_lt_dec (channelsConnected (client w)) (len (channels (client w))))
         as [U|U] |].
    + rewrite connectChannels_next by lia. split; reflexivity.
    + unfold connectChannels. go_unfold.
      replace (channelsConnected (client w) =? len (channels (client w)))
        with false by (symmetry; apply Z.eqb_neq; lia).
      rewrite index_out_of_range by lia. split; reflexivity.
    + unfold connectChannels. go_unfold.
      replace (channelsConnected (client w) =? len (channels (client w)))
        with false by (symmetry; apply Z.eqb_neq; lia).
      rewrite index_out_of_range by lia. split; reflexivity.
Qed.

(** C10.  The index [channelsConnected] is not always below the length of
    the registry when [connectChannels] reads [channels[channelsConnected]]:
    in the invocation where the two are equal, the one that emits
    "connect", the read is out of range and the call panics. *)
Theorem connectChannels_index_out_of_range (w : World) :
  channelsConnected (client w) = len (channels (client w)) ->
  exists w' : World,
    connectChannels w =
      Panicked
        (IndexOutOfRange (channelsConnected (client w))
           (len (channels (client w)))) w' /\
    connects (effects w') =
      connects (effects w) ++
      [EmitConnect (userId (client w)) (channels (client w))].
Proof.
  intros Hi. rewrite connectChannels_done by assumption.
  eexists. split.
  - rewrite Hi. reflexivity.
  - cbn [effects]. unfold connects. rewrite !filter_app. cbn [filter is_connect].
    rewrite app_nil_r. reflexivity.
Qed.

Lemma connectChannels_index_out_of_range_witness :
  exists w' : World,
    connectChannels both_channels_requested =
      Panicked (IndexOutOfRange 2 2) w' /\
    connects (effects w') =
      [EmitConnect 1006
         [mkMCSChannelInfo 1003 "global"%string;
          mkMCSChannelInfo 1006 "user"%string]].
Proof.
  apply (connectChannels_index_out_of_range both_channels_requested).
  reflexivity.
Defined.

(** C3.  A Channel Join Confirm is not examined: for every buffer, hence
    also for one that echoes another channel id than the one requested,
    the handler emits no error and goes on to the next join as long as a
    channel is left. *)
Theorem recvChannelJoinConfirm_ignores_buffer (s : list byte) (w : World) :
  0 <= channelsConnected (client w) < len (channels (client w)) ->
  recvChannelJoinConfirm s w =
    Returned tt
      (mkWorld
         (set_channelsConnected (channelsConnected (client w) + 1) (client w))
         (effects w ++ [Once recvChannelJoinConfirm_h])
         (dataListeners w ++ [(true, recvChannelJoinConfirm_h)])) /\
  errors (effects (world_of (recvChannelJoinConfirm s w))) = errors (effects w).
Proof.
  intros Hi. unfold recvChannelJoinConfirm.
  rewrite connectChannels_next by assumption. split; [reflexivity|].
  cbn [world_of effects]. unfold errors. rewrite filter_app.
  cbn [filter is_error]. apply app_nil_r.
Qed.

Lemma recvChannelJoinConfirm_ignores_buffer_witness :
  recvChannelJoinConfirm confirm_for_1004 global_channel_requested =
    Returned tt
      (mkWorld
         (mkMCSClient SEND_DATA_INDICATION SEND_DATA_REQUEST
            [mkMCSChannelInfo 1003 "global"%string;
             mkMCSChannelInfo 1006 "user"%string]
            (mkClientCoreData 1) None None None 2 1006)
         [Once recvChannelJoinConfirm_h]
         [(true, recvChannelJoinConfirm_h)]) /\
  errors (effects (world_of
    (recvChannelJoinConfirm confirm_for_1004 global_channel_requested))) = [].
Proof.
  apply (recvChannelJoinConfirm_ignores_buffer confirm_for_1004
           global_channel_requested).
  vm_compute. split; congruence.
Defined.

(** ** Attach User Confirm *)

Lemma read_header_byte (b : byte) (rest : list byte) :
  core_ReadUInt8 (bytes_NewReader (b :: rest)) =
    (Z_of_byte b, None, mkReader (b :: rest) 1).
Proof. reflexivity. Qed.

(** C5.  When the top six bits of the first byte of an Attach User Confirm
    are not opcode 11, the handler emits the bad-header error and nothing
    else, leaves the session as it was, and returns with its reader
    standing right after the header byte: the enumerated result that
    follows is not read. *)
Theorem recvAttachUserConfirm_bad_header (b : byte) (rest : list byte) (w : World) :
  Z.shiftr (Z_of_byte b) 2 <> ATTACH_USER_CONFIRM ->
  recvAttachUserConfirm_on (bytes_NewReader (b :: rest)) w =
    Returned (mkReader (b :: rest) 1)
      (mkWorld (client w)
         (effects w ++
          [EmitError (errors_New "NODE_RDP_PROTOCOL_T125_MCS_BAD_HEADER")])
         (dataListeners w)) /\
  recvAttachUserConfirm (b :: rest) w =
    Returned tt
      (mkWorld (client w)
         (effects w ++
          [EmitError (errors_New "NODE_RDP_PROTOCOL_T125_MCS_BAD_HEADER")])
         (dataListeners w)).
Proof.
  intros Hop.
  assert (Hon : recvAttachUserConfirm_on (bytes_NewReader (b :: rest)) w =
    Returned (mkReader (b :: rest) 1)
      (mkWorld (client w)
         (effects w ++
          [EmitError (errors_New "NODE_RDP_PROTOCOL_T125_MCS_BAD_HEADER")])
         (dataListeners w))).
  { unfold recvAttachUserConfirm_on. rewrite read_header_byte.
    unfold readMCSPDUHeader.
    change (uint8 ATTACH_USER_CONFIRM) with ATTACH_USER_CONFIRM.
    replace (Z.shiftr (Z_of_byte b) 2 =? ATTACH_USER_CONFIRM) with false
      by (symmetry; apply Z.eqb_neq; exact Hop).
    cbn [negb]. go_unfold. reflexivity. }
  split; [exact Hon|].
  unfold recvAttachUserConfirm, bind. rewrite Hon. reflexivity.
Qed.

Lemma recvAttachUserConfirm_bad_header_witness :
  recvAttachUserConfirm_on (bytes_NewReader confirm_with_opcode_10)
      attach_user_requested =
    Returned (mkReader confirm_with_opcode_10 1)
      (mkWorld (client attach_user_requested)
         (effects attach_user_requested ++
          [EmitError (errors_New "NODE_RDP_PROTOCOL_T125_MCS_BAD_HEADER")])
         (dataListeners attach_user_requested)) /\
  recvAttachUserConfirm confirm_with_opcode_10 attach_user_requested =
    Returned tt
      (mkWorld (client attach_user_requested)
         (effects attach_user_requested ++
          [EmitError (errors_New "NODE_RDP_PROTOCOL_T125_MCS_BAD_HEADER")])
         (dataListeners attach_user_requested)).
Proof.
  apply (recvAttachUserConfirm_bad_header x28 [x00; x00; x05]
           attach_user_requested).
  vm_compute. congruence.
Defined.

(** C4.  An Attach User Confirm with header opcode 11, enumerated result 0
    and 16-bit assigned id 5, received by a session whose registry holds
    the global channel only, sets the user id to 1006 and leaves the
    registry [{1003, global}; {1006, user}]; before any join was counted
    the handler returns normally. *)
Theorem recvAttachUserConfirm_registers_user_channel
    (h e hi lo : byte) (rest : list byte) (w : World) :
  Z.shiftr (Z_of_byte h) 2 = ATTACH_USER_CONFIRM ->
  Z_of_byte e = 0 ->
  Z_of_byte hi * 256 + Z_of_byte lo = 5 ->
  channels (client w) = [mkMCSChannelInfo MCS_GLOBAL_CHANNEL "global"%string] ->
  let after := recvAttachUserConfirm (h :: e :: hi :: lo :: rest) w in
  userId (client (world_of after)) = 1006 /\
  channels (client (world_of after)) =
    [mkMCSChannelInfo 1003 "global"%string; mkMCSChannelInfo 1006 "user"%string] /\
  (channelsConnected (client w) = 0 -> exists w', after = Returned tt w').
Proof.
  intros Hop He Hid Hch after. subst after.
  unfold recvAttachUserConfirm, recvAttachUserConfirm_on.
  rewrite read_header_byte. unfold readMCSPDUHeader.
  change (uint8 ATTACH_USER_CONFIRM) with ATTACH_USER_CONFIRM.
  rewrite Hop, Z.eqb_refl. cbn [negb].
  unfold per_ReadEnumerates, core_ReadUInt8, per_ReadInteger16.
  cbn [rbuf roff nth_error]. rewrite He, Hid. cbn [Z.eqb negb].
  change (uint16 (5 + MCS_USERCHANNEL_BASE)) with 1006.
  go_unfold. unfold set_channels, set_userId.
  cbn [channels userId recvOpCode sendOpCode clientCoreData serverCoreData
       serverNetworkData serverSecurityData channelsConnected].
  rewrite Hch. cbn [app].
  match goal with
  | |- context [connectChannels ?w0] =>
      pose proof (connectChannels_keeps_registry w0) as [Kc Ku];
      pose proof (connectChannels_next w0) as Kn;
      destruct (connectChannels w0) as [[] w1|p w1] eqn:E
  end;
  cbn [world_of client channels userId channelsConnected] in *.
  - repeat split; try assumption. intros _. eexists. reflexivity.
  - repeat split; try assumption. intros H0. rewrite H0 in Kn.
    discriminate Kn. vm_compute. split; congruence.
Qed.

Lemma recvAttachUserConfirm_registers_user_channel_witness :
  let after := recvAttachUserConfirm confirm_user_5 attach_user_requested in
  userId (client (world_of after)) = 1006 /\
  channels (client (world_of after)) =
    [mkMCSChannelInfo 1003 "global"%string; mkMCSChannelInfo 1006 "user"%string] /\
  (channelsConnected (client attach_user_requested) = 0 ->
   exists w', after = Returned tt w').
Proof.
  apply (recvAttachUserConfirm_registers_user_channel x2c x00 x00 x05 []
           attach_user_requested); reflexivity.
Defined.

(** ** Connect Response and the capability blocks *)

(** A block whose dynamic type is one of the three cases makes the loop
    panic in the type assertion of that case. *)
Lemma recvConnectResponse_loop_value_block
    (v : Iface) (rest : list Iface) (ud : list byte) (w : World) :
  is_server_block_type (dyn_type v) = true ->
  recvConnectResponse_loop (v :: rest) ud w =
    Panicked (InterfaceConversion (dyn_type v) (T_Ptr (dyn_type v))) w.
Proof.
  intros Hv. cbn [recvConnectResponse_loop].
  destruct (dyn_type v) eqn:E; try discriminate Hv;
    unfold type_assert; rewrite E; cbn [GoType_eqb]; reflexivity.
Qed.

(** A first block of any other dynamic type is reported, once, and ends
    the loop. *)
Lemma recvConnectResponse_loop_other_block
    (v : Iface) (rest : list Iface) (ud : list byte) (w : World) :
  is_server_block_type (dyn_type v) = false ->
  recvConnectResponse_loop (v :: rest) ud w =
    Returned false
      (mkWorld (client w)
         (effects w ++ [EmitError (err_unhandled_block v ud)])
         (dataListeners w)).
Proof.
  intros Hv. cbn [recvConnectResponse_loop].
  destruct (dyn_type v) eqn:E; try discriminate Hv; reflexivity.
Qed.

(** No run of the loop stores a capability block in the session. *)
Lemma recvConnectResponse_loop_keeps_client
    (l : list Iface) (ud : list byte) (w : World) :
  client (world_of (recvConnectResponse_loop l ud w)) = client w.
Proof.
  destruct l as [|v rest]; [reflexivity|].
  destruct (is_server_block_type (dyn_type v)) eqn:E.
  - rewrite recvConnectResponse_loop_value_block by assumption. reflexivity.
  - rewrite recvConnectResponse_loop_other_block by assumption. reflexivity.
Qed.

(** When the first decoded block is of none of the three types, the
    handler emits one error, writes nothing and stores nothing. *)
Lemma recvConnectResponse_unhandled_first_block `{PerWriter} `{Gcc} `{Transport}
    (s : list byte) (w : World) (v : Iface) (rest : list Iface) :
  gcc_ReadConferenceCreateResponse [] = v :: rest ->
  is_server_block_type (dyn_type v) = false ->
  recvConnectResponse s w =
    Returned tt
      (mkWorld (client w)
         (effects w ++ [EmitError (err_unhandled_block v [])])
         (dataListeners w)).
Proof.
  intros Hd Hv. unfold recvConnectResponse.
  cbn [ReadConnectResponse NewConnectResponse userData].
  rewrite Hd. unfold bind.
  rewrite recvConnectResponse_loop_other_block by assumption. reflexivity.
Qed.

(** With no block decoded the handler goes on with the handshake. *)
Lemma recvConnectResponse_no_block `{PerWriter} `{Gcc} `{Transport}
    (s : list byte) (w : World) :
  gcc_ReadConferenceCreateResponse [] = [] ->
  recvConnectResponse s w =
    Returned tt
      (mkWorld (client w)
         (((effects w ++
            [Write (x04 :: per_WriteInteger 0 ++ per_WriteInteger 0)]) ++
           [Write [x28]]) ++
          [Once recvAttachUserConfirm_h])
         (dataListeners w ++ [(true, recvAttachUserConfirm_h)])).
Proof.
  intros Hd. unfold recvConnectResponse.
  cbn [ReadConnectResponse NewConnectResponse userData].
  rewrite Hd. cbn [recvConnectResponse_loop].
  unfold sendErectDomainRequest, sendAttachUserRequest. go_unfold.
  reflexivity.
Qed.

(** C6.  The handler never sees the user data of the response it
    receives: it behaves on every buffer as on the empty one, so a response
    that carries an unrecognised block is not told apart.  When the GCC
    decoder finds no block in the (always empty) user data, no error is
    emitted and the Erect Domain and Attach User requests are written.
    When it yields a block held as a value of one of the three server
    types, whatever follows it (an unrecognised block included), the
    handler panics in the type assertion of that block, having emitted
    nothing. *)
Theorem recvConnectResponse_misses_unhandled_block
    `{PerWriter} `{Gcc} `{Transport} (s : list byte) (w : World) :
  recvConnectResponse s w = recvConnectResponse [] w /\
  (gcc_ReadConferenceCreateResponse [] = [] ->
   let after := world_of (recvConnectResponse s w) in
   errors (effects after) = errors (effects w) /\
   writes (effects after) =
     writes (effects w) ++
     [Write (x04 :: per_WriteInteger 0 ++ per_WriteInteger 0); Write [x28]]) /\
  (forall (v : Iface) (rest : list Iface),
      gcc_ReadConferenceCreateResponse [] = v :: rest ->
      is_server_block_type (dyn_type v) = true ->
      recvConnectResponse s w =
        Panicked (InterfaceConversion (dyn_type v) (T_Ptr (dyn_type v))) w).
Proof.
  split; [reflexivity|]. split.
  - intros Hd after. subst after.
    rewrite recvConnectResponse_no_block by assumption.
    cbn [world_of effects]. unfold errors, writes.
    rewrite !filter_app. cbn [filter is_error is_write].
    rewrite !app_nil_r, <- app_assoc. split; reflexivity.
  - intros v rest Hd Hv. unfold recvConnectResponse.
    cbn [ReadConnectResponse NewConnectResponse userData].
    rewrite Hd. unfold bind.
    rewrite recvConnectResponse_loop_value_block by assumption. reflexivity.
Qed.

Lemma recvConnectResponse_misses_unhandled_block_witness :
  (let after :=
     world_of (@recvConnectResponse Sample.per Sample.gcc Sample.transport
                 response_with_unknown_block attach_user_requested) in
   errors (effects after) = [] /\
   writes (effects after) = [Write [x04; x01; x00; x01; x00]; Write [x28]]) /\
  @recvConnectResponse Sample.per Sample.gcc_core_then_unknown Sample.transport
    response_with_unknown_block attach_user_requested =
  Panicked (InterfaceConversion T_ServerCoreData (T_Ptr T_ServerCoreData))
    attach_user_requested.
Proof.
  split.
  - apply (proj1 (proj2 (@recvConnectResponse_misses_unhandled_block
             Sample.per Sample.gcc Sample.transport
             response_with_unknown_block attach_user_requested))).
    reflexivity.
  - apply (proj2 (proj2 (@recvConnectResponse_misses_unhandled_block
             Sample.per Sample.gcc_core_then_unknown Sample.transport
             response_with_unknown_block attach_user_requested))
             (mkIface T_ServerCoreData [x01; x0c])
             [mkIface (T_Other "gcc.ServerMessageChannelData") [x04; x0c]]);
      reflexivity.
Defined.

(** ** The whole handshake *)

Lemma connect_returns `{Ber} `{Gcc} `{Transport} (selectedProtocol : Z) (w : World) :
  (forall b : list byte, transport_Write_error b = None) ->
  exists ci : list byte,
    connect selectedProtocol w =
      Returned tt
        (mkWorld
           (set_clientCoreData (mkClientCoreData (uint32 selectedProtocol))
              (client w))
           ((effects w ++ [Write ci]) ++ [Once recvConnectResponse_h])
           (dataListeners w ++ [(true, recvConnectResponse_h)])).
Proof.
  intros Hw. eexists. unfold connect. go_unfold. rewrite Hw. go_unfold.
  reflexivity.
Qed.

Lemma bind_ret_tt (m : M unit) (w : World) :
  bind m (fun _ => ret tt) w = m w.
Proof. unfold bind, ret. destruct (m w) as [[] w'|p w']; reflexivity. Qed.

Lemma bind_Returned {A B : Type} (m : M A) (k : A -> M B) (w w' : World) (a : A) :
  m w = Returned a w' -> bind m k w = k a w'.
Proof. intros E. unfold bind. rewrite E. reflexivity. Qed.

(** A buffer that arrives while exactly one one-shot listener is pending
    goes to that listener, which is no longer pending when it runs. *)
Lemma fire_data_once `{Ber} `{PerWriter} `{Gcc} `{Transport}
    (h : Handler) (s : list byte) (w : World) :
  dataListeners w = [(true, h)] ->
  fire (In_data s) w = handle h s (mkWorld (client w) (effects w) []).
Proof.
  intros Hl. cbn [fire]. unfold bind at 1, getListeners. rewrite Hl.
  cbn [dispatch]. unfold bind at 1. unfold bind at 1, getListeners, setListeners.
  rewrite Hl. cbn [remove_once andb client effects].
  replace (Handler_eqb h h) with true by (destruct h; reflexivity).
  cbn [andb]. apply bind_ret_tt.
Qed.

(** From the Attach User Confirm on: two joins are counted without a
    write, "connect" is emitted, and the next read of the registry is out
    of range. *)
Lemma joining_run `{Ber} `{PerWriter} `{Gcc} `{Transport}
    (confirm1003 confirm1006 : list byte) (w : World) :
  channels (client w) = [mkMCSChannelInfo MCS_GLOBAL_CHANNEL "global"%string] ->
  channelsConnected (client w) = 0 ->
  dataListeners w = [(true, recvAttachUserConfirm_h)] ->
  run [In_data [x2c; x00; x00; x05]; In_data confirm1003; In_data confirm1006] w =
    Panicked (IndexOutOfRange 2 2)
      (mkWorld
         (set_channelsConnected 2
            (set_channels
               [mkMCSChannelInfo 1003 "global"%string;
                mkMCSChannelInfo 1006 "user"%string]
               (set_userId 1006 (client w))))
         (effects w ++
          [Once recvChannelJoinConfirm_h; Once recvChannelJoinConfirm_h;
           On discard_h;
           EmitConnect 1006
             [mkMCSChannelInfo 1003 "global"%string;
              mkMCSChannelInfo 1006 "user"%string]])
         [(false, discard_h)]).
Proof.
  destruct w as [[r sd ch cd sc sn ss cc uid] eff ls].
  cbn [client channels channelsConnected dataListeners effects].
  intros -> -> ->.
  match goal with
  | |- _ = Panicked _ (mkWorld _ (eff ++ [?a; ?b; ?c; ?d]) _) =>
      replace (eff ++ [a; b; c; d]) with ((((eff ++ [a]) ++ [b]) ++ [c]) ++ [d])
        by (rewrite <- !app_assoc; reflexivity)
  end.
  reflexivity.
Qed.

(** C2.  The run Connect Initial, Connect Response, Attach User Confirm
    (result 0, id 5), confirm, confirm, on a transport that accepts every
    write and with a response that carries no capability block: the
    session writes the Connect Initial, the Erect Domain Request and the
    Attach User Request and nothing else (no Channel Join Request reaches
    the transport), emits "connect" once with user id 1006 and the two
    channels, and then panics on the read past the end of the registry. *)
Theorem handshake_run `{Ber} `{PerWriter} `{Gcc} `{Transport}
    (selectedProtocol : Z) (response confirm1003 confirm1006 : list byte) :
  (forall b : list byte, transport_Write_error b = None) ->
  gcc_ReadConferenceCreateResponse [] = [] ->
  exists (ci : list byte) (w' : World),
    run [In_connect selectedProtocol; In_data response;
         In_data [x2c; x00; x00; x05];
         In_data confirm1003; In_data confirm1006] NewMCSClient =
      Panicked (IndexOutOfRange 2 2) w' /\
    effects w' =
      [Write ci; Once recvConnectResponse_h;
       Write (x04 :: per_WriteInteger 0 ++ per_WriteInteger 0);
       Write [x28]; Once recvAttachUserConfirm_h;
       Once recvChannelJoinConfirm_h; Once recvChannelJoinConfirm_h;
       On discard_h;
       EmitConnect 1006
         [mkMCSChannelInfo 1003 "global"%string;
          mkMCSChannelInfo 1006 "user"%string]] /\
    List.length (writes (effects w')) = 3%nat /\
    List.length (connects (effects w')) = 1%nat.
Proof.
  intros Hw Hd.
  destruct (connect_returns selectedProtocol NewMCSClient Hw) as [ci Hc].
  exists ci. eexists.
  split; [|split; [|split]].
  - cbn [run]. rewrite (bind_Returned _ _ _ _ _ Hc).
    unfold bind at 1.
    rewrite (fire_data_once recvConnectResponse_h) by reflexivity.
    cbn [handle]. rewrite (recvConnectResponse_no_block response _ Hd).
    apply joining_run; reflexivity.
  - reflexivity.
  - reflexivity.
  - reflexivity.
Qed.

Lemma handshake_run_witness :
  exists (ci : list byte) (w' : World),
    @run Sample.ber Sample.per Sample.gcc Sample.transport
      [In_connect 1; In_data [x7f; x66; x00];
       In_data [x2c; x00; x00; x05];
       In_data [x3e; x00; x00; x05; x03; xeb];
       In_data [x3e; x00; x00; x05; x03; xee]]
      (@NewMCSClient Sample.gcc) =
      Panicked (IndexOutOfRange 2 2) w' /\
    effects w' =
      [Write ci; Once recvConnectResponse_h;
       Write [x04; x01; x00; x01; x00];
       Write [x28]; Once recvAttachUserConfirm_h;
       Once recvChannelJoinConfirm_h; Once recvChannelJoinConfirm_h;
       On discard_h;
       EmitConnect 1006
         [mkMCSChannelInfo 1003 "global"%string;
          mkMCSChannelInfo 1006 "user"%string]] /\
    List.length (writes (effects w')) = 3%nat /\
    List.length (connects (effects w')) = 1%nat.
Proof.
  apply (@handshake_run Sample.ber Sample.per Sample.gcc Sample.transport
           1 [x7f; x66; x00]
           [x3e; x00; x00; x05; x03; xeb] [x3e; x00; x00; x05; x03; xee]).
  - intros b. reflexivity.
  - reflexivity.
Defined.

(** * Further properties of the code *)

(** ** The header codec beyond the enumerated opcodes *)

Lemma lor_small (a b : Z) :
  0 <= a < 256 -> 0 <= b < 256 -> 0 <= Z.lor a b < 256.
Proof.
  intros Ha Hb. split.
  - apply Z.lor_nonneg. lia.
  - assert (Hm : Z.lor a b mod 2 ^ 8 = Z.lor a b).
    { apply Z.bits_inj'. intros n Hn.
      destruct (Z.ltb_spec n 8).
      - rewrite Z.mod_pow2_bits_low by lia. reflexivity.
      - rewrite Z.mod_pow2_bits_high by lia.
        rewrite Z.lor_spec.
        replace a with (a mod 2 ^ 8) by (apply Z.mod_small; simpl; lia).
        replace b with (b mod 2 ^ 8) by (apply Z.mod_small; simpl; lia).
        rewrite !Z.mod_pow2_bits_high by lia. reflexivity. }
    rewrite <- Hm. change (2 ^ 8) with 256.
    apply Z.mod_pos_bound. lia.
Qed.

(** X1.  For a 6-bit opcode and any 8-bit option value the header byte has
    [opcode | (options >> 2)] in its top six bits and the two low bits of
    the options below: the options are not masked.  With a 2-bit option the
    byte decodes back to the opcode and the option. *)
Theorem header_bits (op options : Z) :
  0 <= op < 64 ->
  0 <= options < 256 ->
  exists b : byte,
    writeMCSPDUHeader op options [] = [b] /\
    Z.shiftr (Z_of_byte b) 2 = Z.lor op (Z.shiftr options 2) /\
    Z.land (Z_of_byte b) 3 = Z.land options 3 /\
    (options < 4 ->
     Z.shiftr (Z_of_byte b) 2 = op /\ Z.land (Z_of_byte b) 3 = options).
Proof.
  intros Hop Hopt.
  exists (byte_of_Z (Z.lor (uint8 (Z.shiftl (uint8 op) 2)) options)).
  split; [reflexivity|].
  assert (Hs : uint8 (Z.shiftl (uint8 op) 2) = Z.shiftl op 2).
  { unfold uint8. rewrite (Z.mod_small op) by lia.
    apply Z.mod_small. rewrite Z.shiftl_mul_pow2 by lia.
    change (2 ^ 2) with 4. lia. }
  rewrite Hs.
  assert (Hb : 0 <= Z.shiftl op 2 < 256).
  { rewrite Z.shiftl_mul_pow2 by lia. change (2 ^ 2) with 4. lia. }
  rewrite Z_of_byte_of_Z by (apply lor_small; lia).
  assert (H2 : Z.shiftr (Z.lor (Z.shiftl op 2) options) 2 =
               Z.lor op (Z.shiftr options 2)).
  { rewrite Z.shiftr_lor, Z.shiftr_shiftl_l by lia.
    rewrite Z.sub_diag, Z.shiftl_0_r. reflexivity. }
  assert (H3 : Z.land (Z.lor (Z.shiftl op 2) options) 3 = Z.land options 3).
  { rewrite Z.land_lor_distr_l.
    replace (Z.land (Z.shiftl op 2) 3) with 0; [reflexivity|].
    symmetry. apply Z.bits_inj'. intros n Hn.
    rewrite Z.land_spec, Z.bits_0.
    destruct (Z.ltb_spec n 2).
    - rewrite Z.shiftl_spec_low by lia. reflexivity.
    - change 3 with (Z.ones 2). rewrite Z.ones_spec_high by lia.
      apply andb_false_r. }
  repeat split; try assumption.
  - rewrite H2. rewrite Z.shiftr_div_pow2 by lia. change (2 ^ 2) with 4.
    rewrite Z.div_small by lia. apply Z.lor_0_r.
  - rewrite H3. change 3 with (Z.ones 2). rewrite Z.land_ones by lia.
    apply Z.mod_small. change (2 ^ 2) with 4. lia.
Qed.

Lemma header_bits_witness :
  exists b : byte,
    writeMCSPDUHeader ATTACH_USER_REQUEST 4 [] = [b] /\
    Z.shiftr (Z_of_byte b) 2 = Z.lor ATTACH_USER_REQUEST (Z.shiftr 4 2) /\
    Z.land (Z_of_byte b) 3 = Z.land 4 3 /\
    (4 < 4 ->
     Z.shiftr (Z_of_byte b) 2 = ATTACH_USER_REQUEST /\
     Z.land (Z_of_byte b) 3 = 4).
Proof.
  apply (header_bits ATTACH_USER_REQUEST 4); vm_compute; split; congruence.
Defined.

(** X2.  The header keeps six bits of the opcode and the verification
    eight: an opcode and the opcode plus 64 give the same header byte, an
    expected opcode and that opcode plus 256 are verified alike, and no
    byte is accepted for an expected opcode whose low eight bits are 64 or
    more. *)
Theorem header_opcode_aliasing :
  (forall (op options : Z) (w : Writer),
      writeMCSPDUHeader (op + 64) options w = writeMCSPDUHeader op options w) /\
  (forall x op : Z, readMCSPDUHeader x (op + 256) = readMCSPDUHeader x op) /\
  (forall (b : byte) (op : Z),
      readMCSPDUHeader (Z_of_byte b) op = true -> uint8 op < 64).
Proof.
  split; [|split].
  - intros op options w. unfold writeMCSPDUHeader.
    assert (E : uint8 (Z.shiftl (uint8 (op + 64)) 2) =
                uint8 (Z.shiftl (uint8 op) 2)).
    { unfold uint8. rewrite !Z.shiftl_mul_pow2 by lia. change (2 ^ 2) with 4.
      rewrite !(Z.mul_mod_idemp_l _ 4 256) by lia.
      replace ((op + 64) * 4) with (op * 4 + 1 * 256) by lia.
      apply Z.mod_add. lia. }
    rewrite E. reflexivity.
  - intros x op. unfold readMCSPDUHeader, uint8.
    replace (op + 256) with (op + 1 * 256) by lia.
    rewrite Z.mod_add by lia. reflexivity.
  - intros b op Hr. unfold readMCSPDUHeader in Hr. apply Z.eqb_eq in Hr.
    rewrite <- Hr. pose proof (Z_of_byte_range b) as Hb.
    rewrite Z.shiftr_div_pow2 by lia. change (2 ^ 2) with 4.
    apply Z.div_lt_upper_bound; lia.
Qed.

(** ** Domain parameters of the client *)

(** X3.  When the four fields for which the encoder writes constants hold
    those constants, the encoding carries all eight fields as stored; this
    is the case for the three parameter sets of [NewConnectInitial] and for
    the default of [NewConnectResponse]. *)
Theorem DomainParameters_BER_faithful_on_standard `{Ber} :
  (forall d : DomainParameters,
      standard_fixed d ->
      DomainParameters_BER d =
        List.concat (map ber_WriteInteger
          [MaxChannelIds d; MaxUserIds d; MaxTokenIds d; NumPriorities d;
           MinThoughput d; MaxHeight d; MaxMCSPDUsize d; ProtocolVersion d])) /\
  (forall userData : list byte,
      standard_fixed (TargetParameters (NewConnectInitial userData)) /\
      standard_fixed (MinimumParameters (NewConnectInitial userData)) /\
      standard_fixed (MaximumParameters (NewConnectInitial userData)) /\
      standard_fixed (domainParameters (NewConnectResponse userData))).
Proof.
  split.
  - intros d (Hn & Ht & Hh & Hv). rewrite Hn, Ht, Hh, Hv.
    unfold DomainParameters_BER. cbn [map List.concat].
    rewrite app_nil_r, <- !app_assoc. reflexivity.
  - intros userData. unfold standard_fixed. cbn. repeat split; reflexivity.
Qed.

(** ** Delivery when nothing is awaited *)

Lemma fire_data_no_listener `{Ber} `{PerWriter} `{Gcc} `{Transport}
    (s : list byte) (w : World) :
  dataListeners w = [] -> fire (In_data s) w = Returned tt w.
Proof.
  intros Hl. cbn [fire]. unfold bind, getListeners. rewrite Hl. reflexivity.
Qed.

Lemma run_data_no_listener `{Ber} `{PerWriter} `{Gcc} `{Transport}
    (later : list (list byte)) (w : World) :
  dataListeners w = [] -> run (map In_data later) w = Returned tt w.
Proof.
  intros Hl. induction later as [|s later IH]; [reflexivity|].
  cbn [map run]. unfold bind at 1.
  rewrite fire_data_no_listener by assumption. exact IH.
Qed.

(** ** Attach User Confirm: the remaining paths *)

Lemma header_accepted (h : byte) :
  Z.shiftr (Z_of_byte h) 2 = ATTACH_USER_CONFIRM ->
  negb (readMCSPDUHeader (Z_of_byte h) ATTACH_USER_CONFIRM) = false.
Proof.
  intros Hop. unfold readMCSPDUHeader.
  change (uint8 ATTACH_USER_CONFIRM) with ATTACH_USER_CONFIRM.
  rewrite Hop, Z.eqb_refl. reflexivity.
Qed.

(** X4.  An Attach User Confirm with the right header and a non-zero
    result makes the handler emit the server-reject error and nothing
    else: the session is unchanged, the assigned id is not read (the reader
    stops after two bytes), no join is started and no listener is
    registered, so that the buffers that arrive afterwards are dropped. *)
Theorem recvAttachUserConfirm_rejected `{Ber} `{PerWriter} `{Gcc} `{Transport}
    (h e : byte) (rest : list byte) (later : list (list byte)) (w : World) :
  Z.shiftr (Z_of_byte h) 2 = ATTACH_USER_CONFIRM ->
  Z_of_byte e <> 0 ->
  let rejected :=
    mkWorld (client w)
      (effects w ++
       [EmitError (errors_New "NODE_RDP_PROTOCOL_T125_MCS_SERVER_REJECT_USER'")])
  in
  recvAttachUserConfirm_on (bytes_NewReader (h :: e :: rest)) w =
    Returned (mkReader (h :: e :: rest) 2) (rejected (dataListeners w)) /\
  (dataListeners w = [(true, recvAttachUserConfirm_h)] ->
   run (In_data (h :: e :: rest) :: map In_data later) w =
     Returned tt (rejected [])).
Proof.
  intros Hop He rejected.
  assert (Hon : recvAttachUserConfirm_on (bytes_NewReader (h :: e :: rest)) w =
                Returned (mkReader (h :: e :: rest) 2) (rejected (dataListeners w))).
  { unfold recvAttachUserConfirm_on. rewrite read_header_byte.
    rewrite header_accepted by assumption.
    unfold per_ReadEnumerates, core_ReadUInt8. cbn [rbuf roff nth_error].
    replace (Z_of_byte e =? 0) with false by (symmetry; apply Z.eqb_neq; exact He).
    cbn [negb]. go_unfold. reflexivity. }
  split; [exact Hon|].
  intros Hl. cbn [run]. unfold bind at 1.
  rewrite (fire_data_once recvAttachUserConfirm_h) by assumption.
  cbn [handle]. unfold recvAttachUserConfirm, bind.
  match goal with
  | |- context [recvAttachUserConfirm_on ?r ?w0] =>
      assert (E : recvAttachUserConfirm_on r w0 =
                  Returned (mkReader (h :: e :: rest) 2) (rejected []))
  end.
  { unfold recvAttachUserConfirm_on. rewrite read_header_byte.
    rewrite header_accepted by assumption.
    unfold per_ReadEnumerates, core_ReadUInt8. cbn [rbuf roff nth_error].
    replace (Z_of_byte e =? 0) with false by (symmetry; apply Z.eqb_neq; exact He).
    cbn [negb]. go_unfold. reflexivity. }
  rewrite E. cbn [ret].
  apply (run_data_no_listener later (rejected [])). reflexivity.
Qed.

Lemma recvAttachUserConfirm_rejected_witness :
  let rejected :=
    mkWorld (client awaiting_attach_confirm)
      (effects awaiting_attach_confirm ++
       [EmitError (errors_New "NODE_RDP_PROTOCOL_T125_MCS_SERVER_REJECT_USER'")])
  in
  recvAttachUserConfirm_on (bytes_NewReader [x2c; x0f; x00; x05])
      awaiting_attach_confirm =
    Returned (mkReader [x2c; x0f; x00; x05] 2)
      (rejected (dataListeners awaiting_attach_confirm)) /\
  (dataListeners awaiting_attach_confirm = [(true, recvAttachUserConfirm_h)] ->
   @run Sample.ber Sample.per Sample.gcc Sample.transport
     (In_data [x2c; x0f; x00; x05] :: map In_data [[x2c; x00; x00; x05]])
     awaiting_attach_confirm =
     Returned tt (rejected [])).
Proof.
  apply (@recvAttachUserConfirm_rejected
           Sample.ber Sample.per Sample.gcc Sample.transport
           x2c x0f [x00; x05] [[x2c; x00; x00; x05]] awaiting_attach_confirm).
  - reflexivity.
  - vm_compute. congruence.
Defined.



(** X6.  For every assigned id, on every session whose join counter is
    within the registry, an accepted confirm with result 0 stores the user
    id [(id + 1001) mod 65536], appends the user channel with that id
    after the channels already registered, counts one join and awaits one
    confirm; nothing is written and nothing is emitted.  Ids from 64535 on
    wrap around. *)
Theorem recvAttachUserConfirm_accepted
    (h e hi lo : byte) (rest : list byte) (w : World) :
  Z.shiftr (Z_of_byte h) 2 = ATTACH_USER_CONFIRM ->
  Z_of_byte e = 0 ->
  0 <= channelsConnected (client w) <= len (channels (client w)) ->
  let uid := uint16 (Z_of_byte hi * 256 + Z_of_byte lo + MCS_USERCHANNEL_BASE) in
  recvAttachUserConfirm (h :: e :: hi :: lo :: rest) w =
    Returned tt
      (mkWorld
         (set_channelsConnected (channelsConnected (client w) + 1)
            (set_channels
               (channels (client w) ++ [mkMCSChannelInfo uid "user"%string])
               (set_userId uid (client w))))
         (effects w ++ [Once recvChannelJoinConfirm_h])
         (dataListeners w ++ [(true, recvChannelJoinConfirm_h)])).
Proof.
  intros Hop He Hcc uid.
  unfold recvAttachUserConfirm, recvAttachUserConfirm_on.
  rewrite read_header_byte. rewrite header_accepted by assumption.
  unfold per_ReadEnumerates, core_ReadUInt8, per_ReadInteger16.
  cbn [rbuf roff nth_error]. rewrite He. cbn [Z.eqb negb].
  fold uid. go_unfold.
  match goal with
  | |- context [connectChannels ?w0] =>
      rewrite (connectChannels_next w0)
  end.
  - reflexivity.
  - cbn [client]. unfold set_channels, set_userId.
    cbn [channels channelsConnected]. unfold len in *.
    rewrite length_app. cbn [List.length]. lia.
Qed.

Lemma recvAttachUserConfirm_accepted_witness :
  recvAttachUserConfirm [x2c; x00; xff; xff] attach_user_requested =
    Returned tt
      (mkWorld
         (mkMCSClient SEND_DATA_INDICATION SEND_DATA_REQUEST
            [mkMCSChannelInfo 1003 "global"%string;
             mkMCSChannelInfo 1000 "user"%string]
            (mkClientCoreData 1) None None None 1 1000)
         [Once recvChannelJoinConfirm_h]
         [(true, recvChannelJoinConfirm_h)]).
Proof.
  apply (recvAttachUserConfirm_accepted x2c x00 xff xff []
           attach_user_requested).
  - reflexivity.
  - reflexivity.
  - vm_compute. split; congruence.
Defined.

(** ** Connect Initial refused by the transport *)

(** X7.  When the transport refuses the write of the Connect Initial,
    [connect] emits one error that wraps the cause and registers no
    listener: the selected protocol stays recorded, and whatever arrives
    afterwards is dropped. *)
Theorem connect_write_refused `{Ber} `{PerWriter} `{Gcc} `{Transport}
    (cause : error) (selectedProtocol : Z) (later : list (list byte)) (w : World) :
  (forall b : list byte, transport_Write_error b = Some cause) ->
  dataListeners w = [] ->
  exists ci : list byte,
    run (In_connect selectedProtocol :: map In_data later) w =
      Returned tt
        (mkWorld
           (set_clientCoreData (mkClientCoreData (uint32 selectedProtocol))
              (client w))
           (effects w ++
            [Write ci; EmitError (err_connect_initial_write cause)])
           []).
Proof.
  intros Hw Hl. eexists. cbn [run fire]. unfold bind at 1.
  unfold connect. go_unfold. rewrite Hw. go_unfold.
  rewrite run_data_no_listener by assumption.
  rewrite Hl, <- app_assoc. reflexivity.
Qed.

Lemma connect_write_refused_witness :
  exists ci : list byte,
    @run Sample.ber Sample.per Sample.gcc (failing_transport (err_transport 32))
      (In_connect 1 :: map In_data [[x7f; x66; x00]])
      (@NewMCSClient Sample.gcc) =
      Returned tt
        (mkWorld
           (set_clientCoreData (mkClientCoreData (uint32 1))
              (client (@NewMCSClient Sample.gcc)))
           (effects (@NewMCSClient Sample.gcc) ++
            [Write ci;
             EmitError (err_connect_initial_write (err_transport 32))])
           []).
Proof.
  apply (@connect_write_refused Sample.ber Sample.per Sample.gcc
           (failing_transport (err_transport 32))
           (err_transport 32) 1 [[x7f; x66; x00]] (@NewMCSClient Sample.gcc)).
  - intros b. reflexivity.
  - reflexivity.
Defined.

(** ** Channel joining in general *)

(** X8.  [connectChannels] returns exactly when the join counter is a
    valid index of the registry, and panics otherwise; whichever happens,
    it writes nothing to the transport and emits no error. *)
Theorem connectChannels_returns_iff (w : World) :
  ((exists w' : World, connectChannels w = Returned tt w') <->
   0 <= channelsConnected (client w) < len (channels (client w))) /\
  writes (effects (world_of (connectChannels w))) = writes (effects w) /\
  errors (effects (world_of (connectChannels w))) = errors (effects w).
Proof.
  assert (Hout : ~ 0 <= channelsConnected (client w) < len (channels (client w)) ->
                 channelsConnected (client w) <> len (channels (client w)) ->
                 connectChannels w =
                   Panicked
                     (IndexOutOfRange (channelsConnected (client w))
                        (len (channels (client w)))) w).
  { intros Hr NE. unfold connectChannels. go_unfold.
    replace (channelsConnected (client w) =? len (channels (client w)))
      with false by (symmetry; apply Z.eqb_neq; exact NE).
    rewrite index_out_of_range by exact Hr. reflexivity. }
  destruct (Z.eq_dec (channelsConnected (client w)) (len (channels (client w))))
    as [E|NE].
  - rewrite connectChannels_done by assumption. cbn [world_of effects].
    unfold writes, errors. rewrite !filter_app.
    cbn [filter is_write is_error]. rewrite !app_nil_r.
    split; [split | split; reflexivity].
    + intros [w' Hw']. discriminate Hw'.
    + intros Hr. lia.
  - destruct (Z_le_dec 0 (channelsConnected (client w))) as [L|L];
      [destruct (Z_lt_dec (channelsConnected (client w)) (len (channels (client w))))
         as [U|U] |].
    + rewrite connectChannels_next by lia. cbn [world_of effects].
      unfold writes, errors. rewrite !filter_app.
      cbn [filter is_write is_error]. rewrite !app_nil_r.
      split; [split | split; reflexivity].
      * intros _. lia.
      * intros _. eexists. reflexivity.
    + rewrite Hout by lia. cbn [world_of].
      split; [split | split; reflexivity].
      * intros [w' Hw']. discriminate Hw'.
      * intros Hr. lia.
    + rewrite Hout by lia. cbn [world_of].
      split; [split | split; reflexivity].
      * intros [w' Hw']. discriminate Hw'.
      * intros Hr. lia.
Qed.






(** ** Connect Response: a block that matches no case *)

(** X10.  When the first decoded block is of none of the three value
    types of the switch (a pointer to one of them included), the handler
    emits one unhandled-block error for it, whatever blocks follow; it
    writes nothing, stores nothing and registers no listener, so the
    buffers that arrive afterwards are dropped. *)
Theorem recvConnectResponse_reports_first_block
    `{Ber} `{PerWriter} `{Gcc} `{Transport}
    (s : list byte) (later : list (list byte)) (w : World)
    (v : Iface) (rest : list Iface) :
  gcc_ReadConferenceCreateResponse [] = v :: rest ->
  is_server_block_type (dyn_type v) = false ->
  dataListeners w = [(true, recvConnectResponse_h)] ->
  run (In_data s :: map In_data later) w =
    Returned tt
      (mkWorld (client w)
         (effects w ++ [EmitError (err_unhandled_block v [])]) []).
Proof.
  intros Hd Hv Hl. cbn [run]. unfold bind at 1.
  rewrite (fire_data_once recvConnectResponse_h) by assumption.
  cbn [handle].
  rewrite (recvConnectResponse_unhandled_first_block s _ v rest Hd Hv).
  cbn [client effects]. apply run_data_no_listener. reflexivity.
Qed.

Lemma recvConnectResponse_reports_first_block_witness :
  @run Sample.ber Sample.per gcc_pointer_block Sample.transport
    (In_data response_with_unknown_block :: map In_data [confirm_user_5])
    (mkWorld (client attach_user_requested) [] [(true, recvConnectResponse_h)]) =
    Returned tt
      (mkWorld (client attach_user_requested)
         ([] ++ [EmitError
            (err_unhandled_block
               (mkIface (T_Ptr T_ServerNetworkData) [x03; x0c]) [])])
         []).
Proof.
  apply (@recvConnectResponse_reports_first_block
           Sample.ber Sample.per gcc_pointer_block Sample.transport
           response_with_unknown_block [confirm_user_5]
           (mkWorld (client attach_user_requested) []
              [(true, recvConnectResponse_h)])
           (mkIface (T_Ptr T_ServerNetworkData) [x03; x0c]) []);
    reflexivity.
Defined.

(** ** What every run keeps *)

Lemma client_moves_trans (a b c : MCSClient) :
  client_moves a b -> client_moves b c -> client_moves a c.
Proof.
  intros Hab Hbc. induction Hab as [|c1 c2 c3 Hm _ IH]; [exact Hbc|].
  eapply moves_step; [exact Hm | apply IH; exact Hbc].
Qed.

Lemma advances_bind {A B : Type} (m : M A) (k : A -> M B) :
  advances m -> (forall a, advances (k a)) -> advances (bind m k).
Proof.
  intros Hm Hk w. unfold bind. specialize (Hm w).
  destruct (m w) as [a w'|p w']; cbn [world_of] in *.
  - eapply client_moves_trans; [exact Hm | apply Hk].
  - exact Hm.
Qed.

Lemma advances_same_client {A : Type} (m : M A) :
  (forall w, client (world_of (m w)) = client w) -> advances m.
Proof. intros E w. rewrite E. apply moves_refl. Qed.

Lemma advances_ret {A : Type} (a : A) : advances (ret a).
Proof. apply advances_same_client. reflexivity. Qed.

Lemma advances_record (e : Effect) : advances (record e).
Proof. apply advances_same_client. reflexivity. Qed.

Lemma advances_Once (h : Handler) : advances (transport_Once h).
Proof. apply advances_same_client. reflexivity. Qed.

Lemma advances_Write `{Transport} (b : list byte) : advances (transport_Write b).
Proof. apply advances_same_client. reflexivity. Qed.

Lemma advances_connect `{Ber} `{Gcc} `{Transport} (selectedProtocol : Z) :
  advances (connect selectedProtocol).
Proof.
  unfold connect. apply advances_bind.
  - intros w. cbn. eapply moves_step; [apply move_protocol | apply moves_refl].
  - intros _. apply advances_bind; [apply advances_same_client; reflexivity|].
    intros c. apply advances_bind; [apply advances_Write|].
    intros [e|]; [apply advances_record | apply advances_Once].
Qed.

Lemma advances_recvConnectResponse `{PerWriter} `{Gcc} `{Transport} (s : list byte) :
  advances (recvConnectResponse s).
Proof.
  unfold recvConnectResponse.
  cbn [ReadConnectResponse NewConnectResponse userData].
  apply advances_bind.
  - apply advances_same_client. apply recvConnectResponse_loop_keeps_client.
  - intros [|]; [|apply advances_ret].
    apply advances_bind.
    + unfold sendErectDomainRequest. cbv zeta.
      apply advances_bind; [apply advances_Write | intros; apply advances_ret].
    + intros _. apply advances_bind; [|intros _; apply advances_Once].
      unfold sendAttachUserRequest. cbv zeta.
      apply advances_bind; [apply advances_Write | intros; apply advances_ret].
Qed.

Lemma advances_connectChannels : advances connectChannels.
Proof.
  intros w.
  destruct (Z.eq_dec (channelsConnected (client w)) (len (channels (client w))))
    as [E|NE].
  - rewrite connectChannels_done by assumption. apply moves_refl.
  - destruct (Z_le_dec 0 (channelsConnected (client w))) as [L|L];
      [destruct (Z_lt_dec (channelsConnected (client w)) (len (channels (client w))))
         as [U|U] |].
    + rewrite connectChannels_next by lia. cbn [world_of client].
      eapply moves_step; [apply move_join; lia | apply moves_refl].
    + unfold connectChannels. go_unfold.
      replace (channelsConnected (client w) =? len (channels (client w)))
        with false by (symmetry; apply Z.eqb_neq; lia).
      rewrite index_out_of_range by lia. apply moves_refl.
    + unfold connectChannels. go_unfold.
      replace (channelsConnected (client w) =? len (channels (client w)))
        with false by (symmetry; apply Z.eqb_neq; lia).
      rewrite index_out_of_range by lia. apply moves_refl.
Qed.

Lemma advances_recvAttachUserConfirm (s : list byte) :
  advances (recvAttachUserConfirm s).
Proof.
  unfold recvAttachUserConfirm. apply advances_bind; [|intros; apply advances_ret].
  unfold recvAttachUserConfirm_on.
  destruct (core_ReadUInt8 (bytes_NewReader s)) as [[option [e0|]] r1];
    [apply advances_bind; [apply advances_record | intros; apply advances_ret]|].
  destruct (negb (readMCSPDUHeader option ATTACH_USER_CONFIRM));
    [apply advances_bind; [apply advances_record | intros; apply advances_ret]|].
  destruct (per_ReadEnumerates r1) as [[e [e1|]] r2];
    [apply advances_bind; [apply advances_record | intros; apply advances_ret]|].
  destruct (negb (e =? 0));
    [apply advances_bind; [apply advances_record | intros; apply advances_ret]|].
  destruct (per_ReadInteger16 r2) as [[assigned ignored] r3].
  intros w. go_unfold.
  eapply moves_step; [apply (move_user assigned)|].
  match goal with
  | |- context [connectChannels ?w0] =>
      pose proof (advances_connectChannels w0) as Hc;
      destruct (connectChannels w0) as [[] w1|p w1]
  end; cbn [world_of client] in *; exact Hc.
Qed.

Lemma advances_handle `{PerWriter} `{Gcc} `{Transport} (h : Handler) (s : list byte) :
  advances (handle h s).
Proof.
  destruct h; cbn [handle].
  - apply advances_recvConnectResponse.
  - apply advances_recvAttachUserConfirm.
  - apply advances_connectChannels.
  - apply advances_ret.
Qed.

Lemma advances_dispatch `{PerWriter} `{Gcc} `{Transport}
    (pending : list (bool * Handler)) (s : list byte) :
  advances (dispatch pending s).
Proof.
  induction pending as [|[once h] pending IH]; cbn [dispatch].
  - apply advances_ret.
  - apply advances_bind.
    + destruct once; apply advances_same_client; reflexivity.
    + intros _. apply advances_bind; [apply advances_handle|].
      intros _. exact IH.
Qed.

Lemma advances_fire `{Ber} `{PerWriter} `{Gcc} `{Transport} (i : Input) :
  advances (fire i).
Proof.
  destruct i; cbn [fire].
  - apply advances_connect.
  - apply advances_bind; [apply advances_same_client; reflexivity|].
    intros ls. apply advances_dispatch.
  - apply advances_record.
  - apply advances_record.
Qed.

(** Whatever the transport delivers, the session changes by the three
    kinds of moves only. *)
Lemma advances_run `{Ber} `{PerWriter} `{Gcc} `{Transport} (inputs : list Input) :
  advances (run inputs).
Proof.
  induction inputs as [|i inputs IH]; cbn [run].
  - apply advances_ret.
  - apply advances_bind; [apply advances_fire | intros _; exact IH].
Qed.

Lemma registry_inv_move (c c' : MCSClient) :
  client_move c c' -> registry_inv c -> registry_inv c'.
Proof.
  intros Hm ([rest Hch] & Hcc & Hid). destruct Hm as [p c|n c|c Hr].
  - repeat split; try (cbn; lia). exists rest. exact Hch.
  - unfold registry_inv, set_channels, set_userId.
    cbn [channels channelsConnected userId].
    split; [|split].
    + exists (rest ++ [mkMCSChannelInfo (uint16 (n + MCS_USERCHANNEL_BASE))
                         "user"%string]).
      rewrite Hch. reflexivity.
    + unfold len in *. rewrite length_app. cbn [List.length]. lia.
    + unfold uint16. apply Z.mod_pos_bound. lia.
  - unfold registry_inv, set_channelsConnected.
    cbn [channels channelsConnected userId].
    split; [exists rest; exact Hch | split; lia].
Qed.

Lemma registry_inv_moves (c c' : MCSClient) :
  client_moves c c' -> registry_inv c -> registry_inv c'.
Proof.
  intros Hm. induction Hm as [|c1 c2 c3 Hs _ IH]; [tauto|].
  intros Hi. apply IH. eapply registry_inv_move; eassumption.
Qed.

(** X11.  Whatever sequence of transport events a session receives, and
    whether the run returns or panics, it keeps: the registry starts with
    the global channel 1003, the join counter lies between 0 and the
    length of the registry (it can reach the length, never pass it), and
    the user id is a 16-bit value.  A fresh client starts there. *)
Theorem run_keeps_registry_inv `{Ber} `{PerWriter} `{Gcc} `{Transport}
    (inputs : list Input) (w : World) :
  registry_inv (client w) ->
  registry_inv (client (world_of (run inputs w))) /\
  registry_inv (client NewMCSClient).
Proof.
  intros Hi. split.
  - eapply registry_inv_moves; [apply advances_run | exact Hi].
  - unfold registry_inv, NewMCSClient, NewMCS. cbn.
    split; [eexists; reflexivity | split; lia].
Qed.

Lemma run_keeps_registry_inv_witness :
  registry_inv
    (client (world_of
       (@run Sample.ber Sample.per Sample.gcc Sample.transport
          [In_connect 1; In_data [x7f; x66; x00]; In_data confirm_user_5;
           In_data confirm_for_1004; In_data confirm_for_1004]
          (@NewMCSClient Sample.gcc)))) /\
  registry_inv (client (@NewMCSClient Sample.gcc)).
Proof.
  apply (@run_keeps_registry_inv Sample.ber Sample.per Sample.gcc Sample.transport
           [In_connect 1; In_data [x7f; x66; x00]; In_data confirm_user_5;
            In_data confirm_for_1004; In_data confirm_for_1004]
           (@NewMCSClient Sample.gcc)).
  unfold registry_inv. cbn.
  split; [eexists; reflexivity | split; lia].
Defined.

Lemma grows_moves (c c' : MCSClient) :
  client_moves c c' ->
  (exists more : list MCSChannelInfo, channels c' = channels c ++ more) /\
  channelsConnected c <= channelsConnected c' /\
  recvOpCode c' = recvOpCode c /\ sendOpCode c' = sendOpCode c /\
  serverCoreData c' = serverCoreData c /\
  serverNetworkData c' = serverNetworkData c /\
  serverSecurityData c' = serverSecurityData c.
Proof.
  intros Hm. induction Hm as [c|c1 c2 c3 Hs _ IH].
  - repeat split; try lia. exists []. symmetry. apply app_nil_r.
  - destruct IH as ([more Hmore] & Hcc & Hr & Hsd & Hc & Hn & Hx).
    destruct Hs as [p c|n c|c Hrange];
      unfold set_clientCoreData, set_channels, set_userId, set_channelsConnected in *;
      cbn [channels channelsConnected recvOpCode sendOpCode serverCoreData
           serverNetworkData serverSecurityData] in *.
    + repeat split; try assumption. exists more. exact Hmore.
    + repeat split; try assumption. rewrite Hmore, <- app_assoc.
      eexists. reflexivity.
    + repeat split; try assumption; try lia. exists more. exact Hmore.
Qed.

(** X12.  Over any run the registry only grows at its end (no channel is
    removed, replaced or reordered), the join counter never decreases, and
    the two opcodes given to [NewMCS] stay as they were. *)
Theorem run_registry_grows `{Ber} `{PerWriter} `{Gcc} `{Transport}
    (inputs : list Input) (w : World) :
  let c' := client (world_of (run inputs w)) in
  (exists more : list MCSChannelInfo,
      channels c' = channels (client w) ++ more) /\
  channelsConnected (client w) <= channelsConnected c' /\
  recvOpCode c' = recvOpCode (client w) /\
  sendOpCode c' = sendOpCode (client w).
Proof.
  intros c'. subst c'.
  destruct (grows_moves _ _ (advances_run inputs w))
    as (Hch & Hcc & Hr & Hs & _).
  repeat split; assumption.
Qed.

(** X13.  No run stores a server capability block: the three server-data
    fields of the session are after any sequence of events what they were
    before, and so stay nil from the creation of the client on. *)
Theorem run_never_stores_server_data `{Ber} `{PerWriter} `{Gcc} `{Transport}
    (inputs : list Input) :
  (forall w : World,
      let c' := client (world_of (run inputs w)) in
      serverCoreData c' = serverCoreData (client w) /\
      serverNetworkData c' = serverNetworkData (client w) /\
      serverSecurityData c' = serverSecurityData (client w)) /\
  no_server_data (client (world_of (run inputs NewMCSClient))).
Proof.
  assert (Hall : forall w : World,
      let c' := client (world_of (run inputs w)) in
      serverCoreData c' = serverCoreData (client w) /\
      serverNetworkData c' = serverNetworkData (client w) /\
      serverSecurityData c' = serverSecurityData (client w)).
  { intros w c'. subst c'.
    destruct (grows_moves _ _ (advances_run inputs w))
      as (_ & _ & _ & _ & Hc & Hn & Hx).
    repeat split; assumption. }
  split; [exact Hall|].
  destruct (Hall NewMCSClient) as (Hc & Hn & Hx).
  unfold no_server_data. rewrite Hc, Hn, Hx. repeat split; reflexivity.
Qed.

(** ** The "connect" notification *)

Lemma no_connect_at_most_once (w : World) :
  no_connect_yet w -> connect_at_most_once w.
Proof.
  unfold no_connect_yet, connect_at_most_once. intros ->. cbn. lia.
Qed.

Lemma quiet_bind {A B : Type} (m : M A) (k : A -> M B) :
  quiet m -> (forall a, quiet (k a)) -> quiet (bind m k).
Proof.
  intros Hm Hk w Hw. unfold bind. specialize (Hm w Hw).
  destruct (m w) as [a w'|p w']; [apply Hk; exact Hm | exact Hm].
Qed.

Lemma quiet_silent {A : Type} (m : M A) :
  (forall w, exists a w', m w = Returned a w' /\ effects w' = effects w) ->
  quiet m.
Proof.
  intros Hm w Hw. destruct (Hm w) as (a & w' & -> & He).
  unfold no_connect_yet in *. rewrite He. exact Hw.
Qed.

Lemma quiet_ret {A : Type} (a : A) : quiet (ret a).
Proof. apply quiet_silent. intros w. exists a, w. split; reflexivity. Qed.

Lemma quiet_panic {A : Type} (p : Panic) : quiet (@panic A p).
Proof. intros w Hw. apply no_connect_at_most_once. exact Hw. Qed.

Lemma quiet_record (e : Effect) : is_connect e = false -> quiet (record e).
Proof.
  intros He w Hw. unfold record, no_connect_yet, connects in *.
  cbn [effects]. rewrite filter_app, Hw. cbn [filter app]. rewrite He.
  reflexivity.
Qed.

Lemma quiet_modifyClient (f : MCSClient -> MCSClient) : quiet (modifyClient f).
Proof. apply quiet_silent. intros w. eexists _, _. split; reflexivity. Qed.

Lemma quiet_getClient : quiet getClient.
Proof. apply quiet_silent. intros w. eexists _, _. split; reflexivity. Qed.

Lemma quiet_getListeners : quiet getListeners.
Proof. apply quiet_silent. intros w. eexists _, _. split; reflexivity. Qed.

Lemma quiet_setListeners (ls : list (bool * Handler)) : quiet (setListeners ls).
Proof. apply quiet_silent. intros w. eexists _, _. split; reflexivity. Qed.

Lemma quiet_Emit_error (e : error) : quiet (Emit_error e).
Proof. apply quiet_record. reflexivity. Qed.

Lemma quiet_Once (h : Handler) : quiet (transport_Once h).
Proof.
  unfold transport_Once. apply quiet_bind; [apply quiet_record; reflexivity|].
  intros _. apply quiet_bind; [apply quiet_getListeners|].
  intros ls. apply quiet_setListeners.
Qed.

Lemma quiet_Write `{Transport} (b : list byte) : quiet (transport_Write b).
Proof.
  unfold transport_Write. apply quiet_bind; [apply quiet_record; reflexivity|].
  intros _. apply quiet_ret.
Qed.

Lemma quiet_connect `{Ber} `{Gcc} `{Transport} (selectedProtocol : Z) :
  quiet (connect selectedProtocol).
Proof.
  unfold connect. apply quiet_bind; [apply quiet_modifyClient|].
  intros _. apply quiet_bind; [apply quiet_getClient|].
  intros c. cbv zeta. apply quiet_bind; [apply quiet_Write|].
  intros [e|]; [apply quiet_Emit_error | apply quiet_Once].
Qed.

Lemma quiet_type_assert (v : Iface) (T : GoType) : quiet (type_assert v T).
Proof.
  unfold type_assert. destruct (GoType_eqb (dyn_type v) T);
    [apply quiet_ret | apply quiet_panic].
Qed.

Lemma quiet_recvConnectResponse_loop (l : list Iface) (ud : list byte) :
  quiet (recvConnectResponse_loop l ud).
Proof.
  induction l as [|v l IH]; cbn [recvConnectResponse_loop]; [apply quiet_ret|].
  destruct (dyn_type v);
    try (apply quiet_bind; [apply quiet_type_assert|]; intros p;
         apply quiet_bind; [apply quiet_modifyClient|]; intros _; exact IH);
    (apply quiet_bind; [apply quiet_Emit_error | intros _; apply quiet_ret]).
Qed.

Lemma quiet_recvConnectResponse `{PerWriter} `{Gcc} `{Transport} (s : list byte) :
  quiet (recvConnectResponse s).
Proof.
  unfold recvConnectResponse.
  cbn [ReadConnectResponse NewConnectResponse userData].
  apply quiet_bind; [apply quiet_recvConnectResponse_loop|].
  intros [|]; [|apply quiet_ret].
  apply quiet_bind.
  - unfold sendErectDomainRequest. cbv zeta.
    apply quiet_bind; [apply quiet_Write | intros; apply quiet_ret].
  - intros _. apply quiet_bind; [|intros _; apply quiet_Once].
    unfold sendAttachUserRequest. cbv zeta.
    apply quiet_bind; [apply quiet_Write | intros; apply quiet_ret].
Qed.

(** [connectChannels] emits "connect" only in the call that panics. *)
Lemma quiet_connectChannels : quiet connectChannels.
Proof.
  intros w Hw.
  destruct (Z.eq_dec (channelsConnected (client w)) (len (channels (client w))))
    as [E|NE].
  - rewrite connectChannels_done by assumption.
    unfold connect_at_most_once, no_connect_yet, connects in *.
    cbn [effects]. rewrite !filter_app, Hw. cbn. lia.
  - destruct (Z_le_dec 0 (channelsConnected (client w))) as [L|L];
      [destruct (Z_lt_dec (channelsConnected (client w)) (len (channels (client w))))
         as [U|U] |].
    + rewrite connectChannels_next by lia.
      unfold no_connect_yet, connects in *.
      cbn [effects]. rewrite filter_app, Hw. reflexivity.
    + unfold connectChannels. go_unfold.
      replace (channelsConnected (client w) =? len (channels (client w)))
        with false by (symmetry; apply Z.eqb_neq; lia).
      rewrite index_out_of_range by lia.
      apply no_connect_at_most_once. exact Hw.
    + unfold connectChannels. go_unfold.
      replace (channelsConnected (client w) =? len (channels (client w)))
        with false by (symmetry; apply Z.eqb_neq; lia).
      rewrite index_out_of_range by lia.
      apply no_connect_at_most_once. exact Hw.
Qed.

Lemma quiet_recvAttachUserConfirm (s : list byte) :
  quiet (recvAttachUserConfirm s).
Proof.
  unfold recvAttachUserConfirm. apply quiet_bind; [|intros; apply quiet_ret].
  unfold recvAttachUserConfirm_on.
  destruct (core_ReadUInt8 (bytes_NewReader s)) as [[option [e0|]] r1];
    [apply quiet_bind; [apply quiet_Emit_error | intros; apply quiet_ret]|].
  destruct (negb (readMCSPDUHeader option ATTACH_USER_CONFIRM));
    [apply quiet_bind; [apply quiet_Emit_error | intros; apply quiet_ret]|].
  destruct (per_ReadEnumerates r1) as [[e [e1|]] r2];
    [apply quiet_bind; [apply quiet_Emit_error | intros; apply quiet_ret]|].
  destruct (negb (e =? 0));
    [apply quiet_bind; [apply quiet_Emit_error | intros; apply quiet_ret]|].
  destruct (per_ReadInteger16 r2) as [[assigned ignored] r3]. cbv zeta.
  apply quiet_bind; [apply quiet_modifyClient|]. intros _.
  apply quiet_bind; [apply quiet_modifyClient|]. intros _.
  apply quiet_bind; [apply quiet_connectChannels|]. intros _.
  apply quiet_ret.
Qed.

Lemma quiet_handle `{PerWriter} `{Gcc} `{Transport} (h : Handler) (s : list byte) :
  quiet (handle h s).
Proof.
  destruct h; cbn [handle].
  - apply quiet_recvConnectResponse.
  - apply quiet_recvAttachUserConfirm.
  - apply quiet_connectChannels.
  - apply quiet_ret.
Qed.

Lemma quiet_dispatch `{PerWriter} `{Gcc} `{Transport}
    (pending : list (bool * Handler)) (s : list byte) :
  quiet (dispatch pending s).
Proof.
  induction pending as [|[once h] pending IH]; cbn [dispatch].
  - apply quiet_ret.
  - apply quiet_bind.
    + destruct once; [|apply quiet_ret].
      apply quiet_bind; [apply quiet_getListeners|].
      intros ls. apply quiet_setListeners.
    + intros _. apply quiet_bind; [apply quiet_handle|].
      intros _. exact IH.
Qed.

Lemma quiet_fire `{Ber} `{PerWriter} `{Gcc} `{Transport} (i : Input) :
  quiet (fire i).
Proof.
  destruct i; cbn [fire].
  - apply quiet_connect.
  - apply quiet_bind; [apply quiet_getListeners|].
    intros ls. apply quiet_dispatch.
  - apply quiet_Emit_error.
  - apply quiet_record. reflexivity.
Qed.

Lemma quiet_run `{Ber} `{PerWriter} `{Gcc} `{Transport} (inputs : list Input) :
  quiet (run inputs).
Proof.
  induction inputs as [|i inputs IH]; cbn [run].
  - apply quiet_ret.
  - apply quiet_bind; [apply quiet_fire | intros _; exact IH].
Qed.

(** X14.  A run that returns has not emitted "connect": for every sequence
    of transport events, from a session that has not notified yet, either
    the run returns with no "connect" emitted, or it panics having emitted
    at most one.  The notification is never followed by a normal return. *)
Theorem connect_only_before_panic `{Ber} `{PerWriter} `{Gcc} `{Transport}
    (inputs : list Input) (w : World) :
  connects (effects w) = [] ->
  match run inputs w with
  | Returned _ w' => connects (effects w') = []
  | Panicked _ w' => (List.length (connects (effects w')) <= 1)%nat
  end.
Proof.
  intros Hw. apply (quiet_run inputs w). exact Hw.
Qed.

Lemma connect_only_before_panic_witness :
  match
    @run Sample.ber Sample.per Sample.gcc Sample.transport
      [In_connect 1; In_data [x7f; x66; x00]; In_data confirm_user_5;
       In_data confirm_for_1004; In_data confirm_for_1004]
      (@NewMCSClient Sample.gcc)
  with
  | Returned _ w' => connects (effects w') = []
  | Panicked _ w' => (List.length (connects (effects w')) <= 1)%nat
  end.
Proof.
  apply (@connect_only_before_panic
           Sample.ber Sample.per Sample.gcc Sample.transport
           [In_connect 1; In_data [x7f; x66; x00]; In_data confirm_user_5;
            In_data confirm_for_1004; In_data confirm_for_1004]
           (@NewMCSClient Sample.gcc)).
  reflexivity.
Defined.

(** ** Silence after the Attach User Request *)

Lemma writes_nothing_bind {A B : Type} (m : M A) (k : A -> M B) :
  writes_nothing m -> (forall a, writes_nothing (k a)) ->
  writes_nothing (bind m k).
Proof.
  intros Hm Hk ws w Hw. unfold bind. specialize (Hm ws w Hw).
  destruct (m w) as [a w'|p w']; [apply Hk; exact Hm | exact Hm].
Qed.

Lemma writes_nothing_ret {A : Type} (a : A) : writes_nothing (ret a).
Proof. intros ws w Hw. exact Hw. Qed.

Lemma writes_nothing_record (e : Effect) :
  is_write e = false -> writes_nothing (record e).
Proof.
  intros He ws w [Hw Hl]. unfold record, written, writes in *.
  cbn [effects dataListeners]. split; [|exact Hl].
  rewrite filter_app, Hw. cbn [filter]. rewrite He. apply app_nil_r.
Qed.

Lemma writes_nothing_modifyClient (f : MCSClient -> MCSClient) :
  writes_nothing (modifyClient f).
Proof. intros ws w Hw. exact Hw. Qed.

Lemma writes_nothing_register (once : bool) (h : Handler) (e : Effect) :
  is_write e = false -> h <> recvConnectResponse_h ->
  writes_nothing
    (record e ;; ls <- getListeners ;; setListeners (ls ++ [(once, h)])).
Proof.
  intros He Hh ws w [Hw Hl]. unfold bind, record, getListeners, setListeners.
  unfold written, writes, later_listeners in *. cbn [effects dataListeners].
  split.
  - rewrite filter_app, Hw. cbn [filter]. rewrite He. apply app_nil_r.
  - apply Forall_app. split; [exact Hl|].
    constructor; [exact Hh | constructor].
Qed.

Lemma remove_once_later (h : Handler) (ls : list (bool * Handler)) :
  later_listeners ls -> later_listeners (remove_once h ls).
Proof.
  unfold later_listeners. induction ls as [|[once h'] ls IH]; intros Hl.
  - constructor.
  - cbn [remove_once]. inversion Hl as [|x l Hx Hrest]; subst.
    destruct (once && Handler_eqb h h'); [exact Hrest|].
    constructor; [exact Hx | apply IH; exact Hrest].
Qed.

Lemma writes_nothing_connectChannels : writes_nothing connectChannels.
Proof.
  unfold connectChannels.
  apply writes_nothing_bind; [intros ws w Hw; exact Hw|]. intros c.
  apply writes_nothing_bind.
  - destruct (channelsConnected c =? len (channels c));
      [|apply writes_nothing_ret].
    apply writes_nothing_bind.
    + apply (writes_nothing_register false discard_h (On discard_h));
        [reflexivity | discriminate].
    + intros _. apply writes_nothing_record. reflexivity.
  - intros _. apply writes_nothing_bind; [intros ws w Hw; exact Hw|]. intros c'.
    apply writes_nothing_bind.
    + unfold index.
      destruct ((0 <=? channelsConnected c') &&
                (channelsConnected c' <? len (channels c')));
        [destruct (nth_error (channels c') (Z.to_nat (channelsConnected c')))|];
        intros ws w Hw; exact Hw.
    + intros ch. apply writes_nothing_bind; [apply writes_nothing_ret|].
      intros _. apply writes_nothing_bind; [apply writes_nothing_modifyClient|].
      intros _.
      apply (writes_nothing_register true recvChannelJoinConfirm_h
               (Once recvChannelJoinConfirm_h)); [reflexivity | discriminate].
Qed.

Lemma writes_nothing_recvAttachUserConfirm (s : list byte) :
  writes_nothing (recvAttachUserConfirm s).
Proof.
  assert (Herr : forall (e : error) (r : Reader),
             writes_nothing (Emit_error e ;; ret r)).
  { intros e r. apply writes_nothing_bind;
      [apply writes_nothing_record; reflexivity | intros; apply writes_nothing_ret]. }
  unfold recvAttachUserConfirm.
  apply writes_nothing_bind; [|intros; apply writes_nothing_ret].
  unfold recvAttachUserConfirm_on.
  destruct (core_ReadUInt8 (bytes_NewReader s)) as [[option [e0|]] r1];
    [apply Herr|].
  destruct (negb (readMCSPDUHeader option ATTACH_USER_CONFIRM)); [apply Herr|].
  destruct (per_ReadEnumerates r1) as [[e [e1|]] r2]; [apply Herr|].
  destruct (negb (e =? 0)); [apply Herr|].
  destruct (per_ReadInteger16 r2) as [[assigned ignored] r3]. cbv zeta.
  apply writes_nothing_bind; [apply writes_nothing_modifyClient|]. intros _.
  apply writes_nothing_bind; [apply writes_nothing_modifyClient|]. intros _.
  apply writes_nothing_bind; [apply writes_nothing_connectChannels|]. intros _.
  apply writes_nothing_ret.
Qed.

Lemma writes_nothing_dispatch `{PerWriter} `{Gcc} `{Transport}
    (pending : list (bool * Handler)) (s : list byte) :
  later_listeners pending -> writes_nothing (dispatch pending s).
Proof.
  induction pending as [|[once h] pending IH]; intros Hp; cbn [dispatch].
  - apply writes_nothing_ret.
  - inversion Hp as [|x l Hx Hrest]; subst. cbn [snd] in Hx.
    apply writes_nothing_bind.
    + destruct once; [|apply writes_nothing_ret].
      intros ws w [Hw Hl]. unfold bind, getListeners, setListeners.
      split; [exact Hw|]. cbn [dataListeners].
      apply remove_once_later. exact Hl.
    + intros _. apply writes_nothing_bind.
      * destruct h; cbn [handle].
        -- contradiction Hx. reflexivity.
        -- apply writes_nothing_recvAttachUserConfirm.
        -- apply writes_nothing_connectChannels.
        -- apply writes_nothing_ret.
      * intros _. apply IH. exact Hrest.
Qed.

(** X15.  Once the Connect Response has been handled (no listener for it
    is pending), nothing the session receives makes it write: for every
    sequence of inbound buffers the writes on the transport are, after the
    run, those that were there before it.  No Channel Join Request is ever
    written. *)
Theorem no_write_after_attach_request `{Ber} `{PerWriter} `{Gcc} `{Transport}
    (buffers : list (list byte)) (w : World) :
  later_listeners (dataListeners w) ->
  writes (effects (world_of (run (map In_data buffers) w))) = writes (effects w).
Proof.
  intros Hl.
  assert (Hrun : writes_nothing (run (map In_data buffers))).
  { induction buffers as [|s buffers IH]; cbn [map run].
    - apply writes_nothing_ret.
    - apply writes_nothing_bind; [|intros _; exact IH].
      cbn [fire]. intros ws w0 [Hw0 Hl0]. unfold bind at 1, getListeners.
      apply (writes_nothing_dispatch (dataListeners w0) s Hl0 ws w0).
      split; assumption. }
  specialize (Hrun (writes (effects w)) w (conj eq_refl Hl)).
  destruct (run (map In_data buffers) w) as [a w'|p w']; cbn [world_of];
    destruct Hrun as [Hw' _]; exact Hw'.
Qed.

Lemma no_write_after_attach_request_witness :
  writes (effects (world_of
    (@run Sample.ber Sample.per Sample.gcc Sample.transport
       (map In_data [confirm_user_5; confirm_for_1004; confirm_for_1004])
       awaiting_attach_confirm))) =
  writes (effects awaiting_attach_confirm).
Proof.
  apply (@no_write_after_attach_request
           Sample.ber Sample.per Sample.gcc Sample.transport
           [confirm_user_5; confirm_for_1004; confirm_for_1004]
           awaiting_attach_confirm).
  unfold later_listeners. cbn.
  constructor; [cbn; discriminate | constructor].
Defined.
